(** * The dataset pipeline of [pipeline.py]

    A shallow embedding of the four-stage pipeline (download, unpack and
    split, trim, clean up): the sectioned-text parser of
    [ExtractAndProcessFiles.process_text_file], the two pandas entry points
    it relies on, and the file-system effects of the stages' [output] and
    [run] methods. *)

From Stdlib Require Import Ascii.
From stdpp Require Import gmap strings list fin_maps pretty sorting.


(** ** Python values: exceptions and results *)

Inductive exn :=
  | EmptyDataError            (* pandas.errors.EmptyDataError *)
  | ParserError               (* pandas.errors.ParserError *)
  | UnicodeDecodeError
  | ConnectionError           (* requests.exceptions.ConnectionError *)
  | BadGzipFile
  | ReadError                 (* tarfile.ReadError *)
  | FileNotFoundError (msg : string)       (* raised by the pipeline itself *)
  | NoSuchFileOrDirectory (filename : string)
      (* the [FileNotFoundError] of a failed system call *)
  | FileExistsError
  | NotADirectoryError
  | IsADirectoryError.

Inductive result (A : Type) :=
  | Ok (a : A)
  | Raise (e : exn).
Arguments Ok {A} a.
Arguments Raise {A} e.

Global Instance result_ret : MRet result := λ A a, Ok a.
Global Instance result_bind : MBind result := λ A B f m,
  match m with Ok a => f a | Raise e => Raise e end.

Definition raises {A} (m : result A) : bool :=
  match m with Ok _ => false | Raise _ => true end.

(** The exception that [TrimProbesTable.run] raises by itself. *)
Definition is_not_found (e : exn) : bool :=
  match e with FileNotFoundError _ => true | _ => false end.

Definition raised_not_found {A} (r : result A) : bool :=
  match r with Raise e => is_not_found e | Ok _ => false end.

(** ** Python [str] methods used by the pipeline *)

Module Py.

Definition LF : ascii := "010"%char.
Definition CR : ascii := "013"%char.
Definition TAB : ascii := "009"%char.

(** [s.startswith(p)] *)
Fixpoint startswith (p s : string) : bool :=
  match p, s with
  | "", _ => true
  | String _ _, "" => false
  | String a p', String b s' => bool_decide (a = b) && startswith p' s'
  end.

(** [s.endswith(p)] *)
Definition endswith (p s : string) : bool :=
  startswith (String.rev p) (String.rev s).

(** [s.lstrip(chars)], [s.rstrip(chars)] and [s.strip(chars)]: characters of
    the set [chars] are removed from the ends, whatever their order. *)
Fixpoint lstrip (chars : list ascii) (s : string) : string :=
  match s with
  | "" => ""
  | String a s' => if bool_decide (a ∈ chars) then lstrip chars s' else s
  end.

Definition rstrip (chars : list ascii) (s : string) : string :=
  String.rev (lstrip chars (String.rev s)).

Definition strip (chars : list ascii) (s : string) : string :=
  rstrip chars (lstrip chars s).

(** [c in s] for a character [c]. *)
Fixpoint contains (c : ascii) (s : string) : bool :=
  match s with
  | "" => false
  | String a s' => bool_decide (a = c) || contains c s'
  end.

(** [s.lower()] on ASCII letters. *)
Definition lower_char (a : ascii) : ascii :=
  let n := nat_of_ascii a in
  if (65 <=? n) && (n <=? 90) then ascii_of_nat (n + 32) else a.

Fixpoint lower (s : string) : string :=
  match s with
  | "" => ""
  | String a s' => String (lower_char a) (lower s')
  end.

Definition isalpha_char (a : ascii) : bool :=
  let n := nat_of_ascii (lower_char a) in (97 <=? n) && (n <=? 122).

(** [s.split(sep)] for a one-character separator: never the empty list. *)
Fixpoint split (sep : ascii) (s : string) : list string :=
  match s with
  | "" => [""]
  | String a s' =>
      if bool_decide (a = sep) then "" :: split sep s'
      else match split sep s' with
           | [] => [String a ""]
           | f :: fs => String a f :: fs
           end
  end.

(** [sep.join(l)] for a one-character separator. *)
Fixpoint join (sep : ascii) (l : list string) : string :=
  match l with
  | [] => ""
  | [s] => s
  | s :: l' => s +:+ String sep (join sep l')
  end.

(** Universal newlines: a text file opened with the default [newline=None]
    hands out ["\r\n"] and a lone ["\r"] as ["\n"]. *)
Fixpoint universal_newlines (s : string) : string :=
  match s with
  | "" => ""
  | String a s' =>
      if bool_decide (a = CR) then
        match s' with
        | String b s'' =>
            if bool_decide (b = LF) then String LF (universal_newlines s'')
            else String LF (universal_newlines s')
        | "" => String LF ""
        end
      else String a (universal_newlines s')
  end.

(** Iterating over a text file: each line keeps its final ["\n"]; the last
    line has none when the text does not end with one. *)
Fixpoint readlines (s : string) : list string :=
  match s with
  | "" => []
  | String a s' =>
      if bool_decide (a = LF) then String a "" :: readlines s'
      else match readlines s' with
           | [] => [String a ""]
           | l :: ls => String a l :: ls
           end
  end.

(** Truth value of [None] and of a [str]: only a non-empty string is true. *)
Definition truthy (k : option string) : bool :=
  match k with
  | Some (String _ _) => true
  | _ => false
  end.

(** A [dict] with [str] keys: insertion order is kept, and assigning to a key
    that is present replaces its value in place. *)
Fixpoint dict_set {V} (k : string) (v : V) (d : list (string * V))
  : list (string * V) :=
  match d with
  | [] => [(k, v)]
  | (k', v') :: d' =>
      if decide (k' = k) then (k, v) :: d' else (k', v') :: dict_set k v d'
  end.

Fixpoint dict_get {V} (k : string) (d : list (string * V)) : option V :=
  match d with
  | [] => None
  | (k', v') :: d' => if decide (k' = k) then Some v' else dict_get k d'
  end.

(** [b.decode("utf-8")] goes through: the bytes are well-formed UTF-8, with
    no overlong form, no surrogate and nothing above U+10FFFF.  A [str] is
    kept as the bytes of its UTF-8 form throughout. *)
Definition byte_in (lo hi : N) (a : ascii) : bool :=
  ((lo <=? N_of_ascii a) && (N_of_ascii a <=? hi))%N.

Definition continuation (a : ascii) : bool := byte_in 128 191 a.

Definition three_bytes (a b : ascii) : bool :=
  byte_in 224 224 a && byte_in 160 191 b
  || byte_in 225 236 a && continuation b
  || byte_in 237 237 a && byte_in 128 159 b
  || byte_in 238 239 a && continuation b.

Definition four_bytes (a b : ascii) : bool :=
  byte_in 240 240 a && byte_in 144 191 b
  || byte_in 241 243 a && continuation b
  || byte_in 244 244 a && byte_in 128 143 b.

Fixpoint utf8 (s : string) : bool :=
  match s with
  | "" => true
  | String a s1 =>
      if byte_in 0 127 a then utf8 s1
      else
        match s1 with
        | "" => false
        | String b s2 =>
            if byte_in 194 223 a then continuation b && utf8 s2
            else
              match s2 with
              | "" => false
              | String c s3 =>
                  if byte_in 224 239 a then
                    three_bytes a b && continuation c && utf8 s3
                  else
                    match s3 with
                    | "" => false
                    | String d s4 =>
                        four_bytes a b && continuation c && continuation d
                        && utf8 s4
                    end
              end
        end
  end.

End Py.

(** ** The pandas calls of the pipeline

    [pd.read_csv(f, sep="\t", header=...)], [df.to_csv(f, sep="\t",
    index=False)] and [df.drop(columns=..., errors="ignore")] on tables of
    text.  A cell is the text of its field, or [NaN] where the field is
    empty or one of pandas' missing-value markers.  The model covers text
    without double quotes whose header fields are distinct and not empty;
    the numeric and boolean types that pandas infers for whole columns are
    not represented, a cell keeps the text it was read from.  The statements
    about what is written for a table that was read carry these limits as
    hypotheses ([unquoted], [text_table]). *)

Module pd.

Inductive label :=
  | Name (s : string)     (* a column named by the header row *)
  | Pos (n : nat).        (* a positional column of [header=None] *)

Inductive cell :=
  | NaN
  | Text (s : string).

Global Instance label_eq_dec : EqDecision label.
Proof. solve_decision. Defined.
Global Instance cell_eq_dec : EqDecision cell.
Proof. solve_decision. Defined.

Record DataFrame := mkDataFrame {
  columns : list label;
  rows : list (list cell)
}.

Global Instance DataFrame_eq_dec : EqDecision DataFrame.
Proof. solve_decision. Defined.

(** The [header] argument of [read_csv]. *)
Inductive header_mode :=
  | HeaderInfer    (* header="infer", the default: first row names the columns *)
  | HeaderNone.    (* header=None: every row is data *)

(** The default [na_values] of [read_csv]. *)
Definition na_values : list string :=
  [""; "#N/A"; "#N/A N/A"; "#NA"; "-1.#IND"; "-1.#QNAN"; "-NaN"; "-nan";
   "1.#IND"; "1.#QNAN"; "<NA>"; "N/A"; "NA"; "NULL"; "NaN"; "None"; "n/a";
   "nan"; "null"].

Definition to_cell (field : string) : cell :=
  if bool_decide (field ∈ na_values) then NaN else Text field.

(** [skip_blank_lines=True]: a line that is empty or made of spaces only is
    no record. *)
Fixpoint blank (line : string) : bool :=
  match line with
  | "" => true
  | String a s => bool_decide (a = " "%char) && blank s
  end.

(** The records of a text: its non-blank lines, each split at the tabs. *)
Definition tokenize (text : string) : list (list string) :=
  Py.split Py.TAB <$>
    filter (λ l, blank l = false) (Py.split Py.LF (Py.universal_newlines text)).

(** The width of the table.  The tokenizer lets the first record after the
    header have any number of fields; when it has more than the header, the
    fields in excess, at the front of every record, are the index of the
    table. *)
Definition table_width (n : nat) (records : list (list string)) : nat :=
  match records with
  | [] => n
  | r :: _ => n `max` length r
  end.

(** A record shorter than the table is filled with [NaN]; a longer one is
    the tokenizer's "Expected n fields, saw m". *)
Definition parse_row (n : nat) (fields : list string) : result (list cell) :=
  if decide (n < length fields) then Raise ParserError
  else Ok ((to_cell <$> fields) ++ replicate (n - length fields) NaN).

Fixpoint parse_rows (n : nat) (records : list (list string))
  : result (list (list cell)) :=
  match records with
  | [] => Ok []
  | r :: rs =>
      row ← parse_row n r;
      rows ← parse_rows n rs;
      Ok (row :: rows)
  end.

Definition read_csv (header : header_mode) (text : string) : result DataFrame :=
  match tokenize text with
  | [] => Raise EmptyDataError    (* "No columns to parse from file" *)
  | first :: rest =>
      match header with
      | HeaderInfer =>
          let width := table_width (length first) rest in
          rows ← parse_rows width rest;
          (* the index is left out: [to_csv] is called with [index=False]
             and [drop] works on the columns *)
          Ok (mkDataFrame (Name <$> first)
                          (skipn (width - length first) <$> rows))
      | HeaderNone =>
          rows ← parse_rows (length first) (first :: rest);
          Ok (mkDataFrame (Pos <$> seq 0 (length first)) rows)
      end
  end.

(** Text that [read_csv] hands back as it is: it starts with a letter, holds
    no tab, line end or double quote, and is none of the words that pandas
    reads as a missing value, a number or a truth value. *)
Definition special_words : list string :=
  ["na"; "n/a"; "nan"; "null"; "none"; "inf"; "infinity"; "true"; "false"].

Definition word (s : string) : bool :=
  match s with
  | "" => false
  | String a _ => Py.isalpha_char a
  end
  && negb (Py.contains Py.TAB s) && negb (Py.contains Py.LF s)
  && negb (Py.contains Py.CR s) && negb (Py.contains "034" s)
  && negb (bool_decide (Py.lower s ∈ special_words)).


Definition word_cell (c : cell) : bool :=
  match c with
  | NaN => true
  | Text s => word s
  end.


(** The text the tokenizer takes field by field as it stands: it holds no
    double quote, which would open a quoted field, and no NUL. *)
Definition unquoted (text : string) : bool :=
  negb (Py.contains "034" text) && negb (Py.contains "000" text).

(** A table that is written back with the text it was read from: distinct
    labels, the names among them words, and every cell a word or a missing
    value. *)
Definition text_label (l : label) : bool :=
  match l with
  | Name s => word s
  | Pos _ => true
  end.

Definition text_table (df : DataFrame) : bool :=
  forallb text_label (columns df)
  && bool_decide (NoDup (columns df))
  && forallb (forallb word_cell) (rows df).

(** [df.to_csv(f, sep="\t", index=False)]: the [header] argument is left at
    its default [True], so the column labels are always written first, a
    positional label as its decimal number.  [NaN] is written as the empty
    field.  The csv writer puts one record per line and writes a record made
    of a single empty field as two double quotes. *)
Definition render_label (l : label) : string :=
  match l with
  | Name s => s
  | Pos n => pretty n
  end.

Definition render_cell (c : cell) : string :=
  match c with
  | NaN => ""
  | Text s => s
  end.

Definition record_line (fields : list string) : string :=
  match fields with
  | [""] => String "034" (String "034" "")
  | _ => Py.join Py.TAB fields
  end.

Definition write_record (fields : list string) : string :=
  record_line fields +:+ String Py.LF "".

Definition render_row (row : list cell) : list string := render_cell <$> row.

Definition to_records (df : DataFrame) : list (list string) :=
  (render_label <$> columns df) :: (render_row <$> rows df).

Definition to_csv (df : DataFrame) : string :=
  foldr (λ r out, write_record r +:+ out) "" (to_records df).

(** The csv writer quotes a field that holds a tab, a line end or a double
    quote; the tables below have no such field and no record made of a
    single empty field, so that nothing is quoted. *)
Definition needs_quoting (f : string) : bool :=
  Py.contains Py.TAB f || Py.contains Py.LF f || Py.contains Py.CR f
  || Py.contains "034" f.

Definition plain_records (df : DataFrame) : bool :=
  forallb (λ r, negb (bool_decide (r = [""]))
                && forallb (λ f, negb (needs_quoting f)) r)
          (to_records df).

(** [df.drop(columns=names, errors="ignore")]: every column whose label is
    one of [names] goes, with its cell in each row; a name that labels no
    column is passed over. *)
Definition dropped (names : list string) (l : label) : bool :=
  match l with
  | Name s => bool_decide (s ∈ names)
  | Pos _ => false
  end.

Fixpoint select {A} (mask : list bool) (row : list A) : list A :=
  match mask, row with
  | b :: mask', x :: row' =>
      if b then x :: select mask' row' else select mask' row'
  | _, _ => []
  end.

Definition keep_mask (names : list string) (df : DataFrame) : list bool :=
  (λ l, negb (dropped names l)) <$> columns df.

Definition drop (names : list string) (df : DataFrame) : DataFrame :=
  let mask := keep_mask names df in
  mkDataFrame (select mask (columns df)) (select mask <$> rows df).




End pd.

(** ** The sectioned-text parser: the first half of [process_text_file] *)

Module Parser.

Import pd.

(** The loop variables of [process_text_file]. *)
Record scan := mkScan {
  dfs : list (string * DataFrame);
  write_key : option string;
  fio : string
}.

Definition start : scan := mkScan [] None "".

Definition key_of (write_key : option string) : string := default "" write_key.

(** [line.strip("[]\n")] *)
Definition section_name (line : string) : string :=
  Py.strip ["["; "]"; Py.LF]%char line.

(** One turn of [for line in f]. *)
Definition step (st : scan) (line : string) : result scan :=
  if Py.startswith "[" line then
    dfs' ←
      (if Py.truthy (write_key st) then
         let header :=
           if decide (key_of (write_key st) = "Heading") then HeaderNone
           else HeaderInfer in
         df ← read_csv header (fio st);
         Ok (Py.dict_set (key_of (write_key st)) df (dfs st))
       else Ok (dfs st));
    Ok (mkScan dfs' (Some (section_name line)) "")
  else if Py.truthy (write_key st) then
    Ok (mkScan (dfs st) (write_key st) (fio st +:+ line))
  else Ok st.

Fixpoint scan_lines (st : scan) (lines : list string) : result scan :=
  match lines with
  | [] => Ok st
  | line :: lines' => st' ← step st line; scan_lines st' lines'
  end.

(** After the loop: the last table. *)
Definition finish (st : scan) : result (list (string * DataFrame)) :=
  if Py.truthy (write_key st) then
    df ← read_csv HeaderInfer (fio st);
    Ok (Py.dict_set (key_of (write_key st)) df (dfs st))
  else Ok (dfs st).

(** The tables of a text, as [process_text_file] has them in [dfs] before it
    writes any file. *)
Definition parse (text : string) : result (list (string * DataFrame)) :=
  st ← scan_lines start (Py.readlines (Py.universal_newlines text));
  finish st.

(** Lines that open a section, and lines that do not. *)
Definition header_line (l : string) : Prop := Py.startswith "[" l = true.
Definition body_line (l : string) : Prop := Py.startswith "[" l = false.

(** What [fio] holds after the lines of a body were written to it. *)
Definition concat_lines (ls : list string) : string :=
  foldr (λ l out, l +:+ out) "" ls.

End Parser.

(** Texts of the examples: lines ended by a newline, fields separated by
    tabs. *)
Definition tsv (fields : list string) : string := Py.join Py.TAB fields.
Definition text_of (lines : list string) : string :=
  foldr (λ l out, l +:+ String Py.LF out) "" lines.

(** ** Files, paths and the effects of the stages *)

Module OS.

(** A path is the list of its parts, as [pathlib] keeps it. *)
Abbreviation path := (list string).

(** What a file holds: plain bytes (kept as a string), a gzip stream (kept
    as the bytes it decompresses to), or a tar archive (kept as its
    members). *)
#[warnings="-register-all"]
Inductive content :=
  | Plain (text : string)
  | Gzip (text : string)
  | Tar (members : list (path * content)).

Inductive node :=
  | File (data : content)
  | Dir.

(** The calls that change the file system, kept in the order they are made. *)
Inductive event :=
  | Makedirs (p : path)
  | Write (p : path) (data : content)
  | Unlink (p : path)
  | Rmdir (p : path).

Record world := mkWorld {
  files : gmap path node;
  log : list event
}.

(** A computation reads and changes the world and returns or raises. *)
Definition io (A : Type) : Type := world → result A * world.

Global Instance io_ret : MRet io := λ A a w, (Ok a, w).
Global Instance io_bind : MBind io := λ A B f m w,
  match m w with
  | (Ok a, w') => f a w'
  | (Raise e, w') => (Raise e, w')
  end.

Definition throw {A} (e : exn) : io A := λ w, (Raise e, w).
Definition lift {A} (r : result A) : io A := λ w, (r, w).
Definition get_files : io (gmap path node) := λ w, (Ok (files w), w).
Definition effect (ev : event) (f : gmap path node → gmap path node) : io unit :=
  λ w, (Ok (), mkWorld (f (files w)) (log w ++ [ev])).

(** [for x in xs: body(x)] *)
Fixpoint for_each {A} (xs : list A) (body : A → io unit) : io unit :=
  match xs with
  | [] => mret ()
  | x :: xs' => body x ≫= λ _, for_each xs' body
  end.

(** *** Pure path operations of [pathlib] *)

Definition name (p : path) : string := default "" (last p).
Definition parent (p : path) : path := removelast p.
Definition with_name (p : path) (n : string) : path := parent p ++ [n].

(** [str(p)] *)
Definition str (p : path) : string := Py.join "/" p.

(** The name cut at its last dot, when that dot is neither the first nor the
    last character: [(stem, suffix)]. *)
Fixpoint cut_last_dot (rev_name acc : string) : option (string * string) :=
  match rev_name with
  | "" => None
  | String a s =>
      if bool_decide (a = "."%char) then Some (String.rev s, String a acc)
      else cut_last_dot s (String a acc)
  end.

Definition split_suffix (n : string) : string * string :=
  match cut_last_dot (String.rev n) "" with
  | Some (String a s, String dot (String b t)) =>
      (String a s, String dot (String b t))
  | _ => (n, "")
  end.

Definition stem (p : path) : string := (split_suffix (name p)).1.
Definition suffix (p : path) : string := (split_suffix (name p)).2.

(** [p.with_suffix("")] *)
Definition without_suffix (p : path) : path := with_name p (stem p).

(** [p / s] for a string [s]: the parts of [s] are the pieces between its
    slashes, empty pieces and ["."] left out; a string that starts with a
    slash is absolute and replaces [p].  A [".."] part stays as it is, as
    in [pathlib]; the files below are kept under the paths as they are
    spelled, so that a path with a [".."] part names none of them.  What is
    stated on the files of the tables is stated for names without a
    slash. *)
Definition parts_of (s : string) : path :=
  filter (λ c, c ≠ "" ∧ c ≠ ".") (Py.split "/" s).

Definition joinpath (p : path) (s : string) : path :=
  if Py.startswith "/" s then "/" :: parts_of s else p ++ parts_of s.

(** *** Looking at the file system *)

Definition exists_in (fs : gmap path node) (p : path) : bool :=
  bool_decide (p = []) || bool_decide (is_Some (fs !! p)).

Definition is_dir (fs : gmap path node) (p : path) : bool :=
  bool_decide (p = []) ||
  match fs !! p with Some Dir => true | _ => false end.

Definition is_file (fs : gmap path node) (p : path) : bool :=
  match fs !! p with Some (File _) => true | _ => false end.

(** The entries of a directory, [d.iterdir()]. *)
Definition children (fs : gmap path node) (d : path) : list path :=
  filter (λ p, p ≠ [] ∧ parent p = d) (map_to_list fs).*1.

(** Everything below a directory. *)
Definition below (d p : path) : Prop := d `prefix_of` p ∧ p ≠ d.

Definition descendants (fs : gmap path node) (d : path) : list path :=
  filter (below d) (map_to_list fs).*1.

(** The patterns the stages pass to [glob] and [rglob]: a plain name, or a
    star followed by a fixed ending. *)
Inductive pattern :=
  | Exactly (n : string)       (* "Probes.tsv" *)
  | Ending (e : string).       (* "*.txt", "*.gz" *)

Definition fnmatch (pat : pattern) (n : string) : bool :=
  match pat with
  | Exactly m => bool_decide (n = m)
  | Ending e => Py.endswith e n
  end.

(** [d.glob(pat)] for a pattern of one part: the matching entries of [d]. *)
Definition glob (fs : gmap path node) (d : path) (pat : pattern) : list path :=
  if is_dir fs d then filter (λ p, fnmatch pat (name p) = true) (children fs d)
  else [].

(** [d.rglob(pat)]: the matching paths anywhere below [d], files and
    directories alike. *)
Definition rglob (fs : gmap path node) (d : path) (pat : pattern) : list path :=
  if is_dir fs d then filter (λ p, fnmatch pat (name p) = true) (descendants fs d)
  else [].

(** [d.glob("**/")]: [d] and every directory below it, a directory before
    anything below it. *)
Definition shorter (p q : path) : Prop := length p ≤ length q.

Global Instance shorter_dec : RelDecision shorter.
Proof. intros p q. unfold shorter. apply _. Defined.

Definition glob_dirs (fs : gmap path node) (d : path) : list path :=
  if is_dir fs d then
    d :: merge_sort shorter (filter (λ p, is_dir fs p = true) (descendants fs d))
  else [].

(** *** Changing the file system *)

(** The non-empty prefixes of a path, shortest first. *)
Definition ancestors_and_self (p : path) : list path :=
  (λ n, take n p) <$> seq 1 (length p).

(** [os.makedirs(p, exist_ok=True)] *)
Definition makedirs (p : path) : io unit :=
  fs ← get_files;
  if existsb (is_file fs) (ancestors_and_self p) then
    throw (if is_file fs p then FileExistsError else NotADirectoryError)
  else effect (Makedirs p) (λ fs, foldr (λ q, <[q := Dir]>) fs (ancestors_and_self p)).

(** Opening a file for writing and writing [data] to it. *)
Definition write (p : path) (data : content) : io unit :=
  fs ← get_files;
  if negb (exists_in fs (parent p)) then throw (NoSuchFileOrDirectory (str p))
  else if negb (is_dir fs (parent p)) then throw NotADirectoryError
  else if is_dir fs p then throw IsADirectoryError
  else effect (Write p data) (<[p := File data]>).

(** Opening a file for reading. *)
Definition read (p : path) : io content :=
  fs ← get_files;
  match fs !! p with
  | Some (File data) => mret data
  | Some Dir => throw IsADirectoryError
  | None => throw (NoSuchFileOrDirectory (str p))
  end.

(** Decoding what was read as text, [encoding="utf-8"]: bytes that are not
    UTF-8 raise.  The file is decoded in full before its text is looked at;
    the program decodes it as it reads, and has read all of it before it
    writes anything. *)
Definition decode (data : content) : result string :=
  match data with
  | Plain text => if Py.utf8 text then Ok text else Raise UnicodeDecodeError
  | _ => Raise UnicodeDecodeError
  end.

Definition read_text (p : path) : io string :=
  data ← read p; lift (decode data).

(** [gzip] decompression of what was read; an empty file reads as empty. *)
Definition gunzip (data : content) : result string :=
  match data with
  | Gzip text => Ok text
  | Plain "" => Ok ""
  | _ => Raise BadGzipFile
  end.

(** [p.unlink()] *)
Definition unlink (p : path) : io unit :=
  fs ← get_files;
  match fs !! p with
  | Some (File _) => effect (Unlink p) (delete p)
  | Some Dir => throw IsADirectoryError
  | None => throw (NoSuchFileOrDirectory (str p))
  end.

(** [p.rmdir()], called on directories without entries only. *)
Definition rmdir (p : path) : io unit :=
  effect (Rmdir p) (delete p).

(** [luigi.LocalTarget(p).open("w")] and a write: the parent folder is made
    first, a failure to make it is passed over. *)
Definition target_write (p : path) (text : string) : io unit :=
  (λ w, match makedirs (parent p) w with
        | (Ok _, w') => (Ok (), w')
        | (Raise _, _) => (Ok (), w)
        end) ≫= λ _, write p (Plain text).

(** [luigi.LocalTarget(p).exists()] *)
Definition target_exists (fs : gmap path node) (p : path) : bool :=
  bool_decide (is_Some (fs !! p)).

(** [Task.complete()]: there are outputs and they all exist. *)
Definition complete (fs : gmap path node) (outputs : list path) : bool :=
  match outputs with
  | [] => false
  | _ => forallb (target_exists fs) outputs
  end.

(** No file lies at [d]. *)
Definition no_file (fs : gmap path node) (d : path) : Prop :=
  ∀ data, fs !! d ≠ Some (File data).

End OS.

(** ** The stages

    A task has the parameters [output_dir] and [dataset_name]; everything it
    touches lies in [main_dir], [Path(output_dir) / dataset_name]. *)

Record task := mkTask {
  output_dir : OS.path;
  dataset_name : string
}.

Definition main_dir (t : task) : OS.path := output_dir t ++ [dataset_name t].

Module DownloadDataset.

Definition output (t : task) : OS.path :=
  output_dir t ++ [dataset_name t +:+ "_RAW.tar"].


(** How [run] ends: it returns, a call into the system raises, or [run]
    itself raises [ValueError]. *)
Inductive outcome :=
  | Done
  | Failed (e : exn)
  | ValueError (msg : string).

(** What [requests.get(url, stream=True)] answers: the status code, and
    what reading the body gives.  With [stream=True] the body is fetched
    when [response.content] is read, and that read can fail. *)
Record response := mkResponse {
  status_code : nat;
  content_of : result OS.content
}.

(** [run], for what the request gives: an answer, or an exception of
    [requests.get] itself.  [open(path, "wb")] makes the archive file or
    empties it before [response.content] is read. *)
Definition run (t : task) (get : result response) (w : OS.world)
  : outcome * OS.world :=
  match OS.makedirs (output_dir t) w with
  | (Raise e, w1) => (Failed e, w1)
  | (Ok _, w1) =>
      match get with
      | Raise e => (Failed e, w1)
      | Ok resp =>
          if decide (status_code resp ≠ 200) then
            (ValueError
               ("Не удалось загрузить: " +:+ pretty (status_code resp)),
             w1)
          else
            match OS.write (output t) (OS.Plain "") w1 with
            | (Raise e, w2) => (Failed e, w2)
            | (Ok _, w2) =>
                match content_of resp with
                | Raise e => (Failed e, w2)
                | Ok data =>
                    match OS.write (output t) data w2 with
                    | (Ok _, w3) => (Done, w3)
                    | (Raise e, w3) => (Failed e, w3)
                    end
                end
            end
      end
  end.

End DownloadDataset.

Module ExtractAndProcessFiles.

Import OS pd.

Definition output (t : task) : path := main_dir t ++ ["processed_done.txt"].

(** [process_text_file]: the tables of the text, then one file for each. *)
Definition save_table (file_path : path) (entry : string * DataFrame) : io unit :=
  let output_file := joinpath (parent file_path) (entry.1 +:+ ".tsv") in
  write output_file (Plain (to_csv entry.2)).

Definition process_text_file (file_path : path) : io unit :=
  text ← read_text file_path;
  dfs ← lift (Parser.parse text);
  for_each dfs (save_table file_path).

(** The write that [save_table] makes, as the log has it. *)
Definition table_write (file_path : path) (entry : string * DataFrame) : event :=
  Write (joinpath (parent file_path) (entry.1 +:+ ".tsv"))
        (Plain (to_csv entry.2)).

(** The file of a table whose name holds no slash. *)
Definition table_path (file_path : path) (key : string) : path :=
  parent file_path ++ [key +:+ ".tsv"].

(** A section name that names a file next to the text: it holds no slash,
    and with [.tsv] after it is no longer than a file name may be (255
    bytes). *)
Definition file_key (key : string) : Prop :=
  Py.contains "/" key = false ∧ String.length key + 4 ≤ 255.

(** The body of [for gz_file in main_dir.glob("*.gz")]. *)
Definition process_member (t : task) (gz_file : path) : io unit :=
  let extracted_file_path := without_suffix gz_file in
  let extracted_dir := main_dir t ++ [stem extracted_file_path] in
  let text_file := extracted_dir ++ [name extracted_file_path] in
  makedirs extracted_dir ;;
  data ← read gz_file;
  write text_file (Plain "") ;;
  text ← lift (gunzip data);
  write text_file (Plain text) ;;
  unlink gz_file ;;
  process_text_file text_file.

(** [tar.extractall(dest)] *)
Definition extract_member (dest : path) (m : path * content) : io unit :=
  makedirs (dest ++ parent m.1) ;;
  write (dest ++ m.1) m.2.

Definition extractall (dest : path) (data : content) : io unit :=
  match data with
  | Tar members => for_each members (extract_member dest)
  | _ => throw ReadError
  end.

Definition run (t : task) : io unit :=
  makedirs (main_dir t) ;;
  tar ← read (DownloadDataset.output t);
  extractall (main_dir t) tar ;;
  fs ← get_files;
  for_each (glob fs (main_dir t) (Ending ".gz")) (process_member t) ;;
  target_write (output t) "Processing completed.".


(** What a step of [run] may remove: a compressed member that lies in
    [main_dir]. *)
Definition member_of (t : task) (p : path) : Prop :=
  parent p = main_dir t ∧ fnmatch (Ending ".gz") (name p) = true.

Definition removes_members_only (t : task) (w w' : world) : Prop :=
  ∀ p, is_Some (files w !! p) → is_Some (files w' !! p) ∨ member_of t p.

End ExtractAndProcessFiles.

Module TrimProbesTable.

Import OS pd.

Definition columns_to_remove : list string :=
  ["Definition"; "Ontology_Component"; "Ontology_Process";
   "Ontology_Function"; "Synonyms"; "Obsolete_Probe_Id"; "Probe_Sequence"].

Definition trimmed_file_path (probes_file : path) : path :=
  with_name probes_file (stem probes_file +:+ "_trimmed.tsv").

(** [output()] looks the files up each time it is called. *)
Definition output (t : task) (fs : gmap path node) : list path :=
  trimmed_file_path <$> rglob fs (main_dir t) (Exactly "Probes.tsv").

Definition not_found (t : task) : exn :=
  FileNotFoundError
    ("Файлы Probes.tsv не найдены в подкаталогах " +:+ str (main_dir t)).

Definition trim (probes_file : path) : io unit :=
  text ← read_text probes_file;
  df ← lift (read_csv HeaderInfer text);
  let trimmed_df := drop columns_to_remove df in
  write (trimmed_file_path probes_file) (Plain (to_csv trimmed_df)).

Definition run (t : task) : io unit :=
  fs ← get_files;
  let probes_files := rglob fs (main_dir t) (Exactly "Probes.tsv") in
  match probes_files with
  | [] => throw (not_found t)
  | _ => for_each probes_files trim
  end.

(** A [Probes.tsv] that is trimmed within the limits of the pandas model:
    it lies in a directory, no directory has the name of its trimmed file,
    and it is a file of plain text (UTF-8, no double quote, no NUL) that
    reads as a table of words of which some column stays. *)
Definition plain_table (fs : gmap path node) (probes_file : path) : Prop :=
  is_dir fs (parent probes_file) = true
  ∧ is_dir fs (trimmed_file_path probes_file) = false
  ∧ ∃ text df,
      fs !! probes_file = Some (File (Plain text)) ∧
      Py.utf8 text = true ∧ unquoted text = true ∧
      read_csv HeaderInfer text = Ok df ∧
      text_table df = true ∧
      columns (drop columns_to_remove df) ≠ [].

End TrimProbesTable.

Module CleanupOriginalFiles.

Import OS.

Definition output (t : task) : path := main_dir t ++ ["cleanup_done.txt"].

(** The names that the two deletion loops look for. *)
Definition raw_name (n : string) : bool :=
  fnmatch (Ending ".txt") n || fnmatch (Ending ".gz") n.

Section Run.

(** [glob("**/")] lists a directory after it has handed it to the loop.  Up
    to Python 3.11 listing a directory that the loop has just removed raises
    [FileNotFoundError]; from 3.12 on the failure is passed over. *)
Variable listing_removed_raises : bool.

(** The body of [for dir_path in main_dir.glob("**/")]. *)
Definition remove_if_empty (dir_path : path) : io unit :=
  fs ← get_files;
  match children fs dir_path with
  | [] =>
      rmdir dir_path ;;
      if listing_removed_raises then throw (NoSuchFileOrDirectory (str dir_path))
      else mret ()
  | _ => mret ()
  end.

(** Each loop runs over the paths found when it starts: the walk lists a
    directory once, and what the loop has removed before that are files of
    other directories, or the directory itself. *)
Definition run (t : task) : io unit :=
  fs ← get_files;
  for_each (rglob fs (main_dir t) (Ending ".txt")) unlink ;;
  fs ← get_files;
  for_each (rglob fs (main_dir t) (Ending ".gz")) unlink ;;
  fs ← get_files;
  for_each (glob_dirs fs (main_dir t)) remove_if_empty ;;
  target_write (output t) (text_of ["Cleanup completed."]).

End Run.

End CleanupOriginalFiles.

(** ** Worked examples: one dataset through the stages *)

Module Example.

Import OS pd.

Definition GSE : task := mkTask ["data"] "GSE1".

(** The text of the one member of the archive. *)
Definition member_text : string :=
  text_of ["junk"; "[Heading]"; "x"; "y"; "[Probes]";
           tsv ["Probe_Id"; "Definition"; "Probe_Sequence"];
           tsv ["p1"; "d"; "ACGT"];
           "[Controls]"; "c"; "1"].

(** After the download: the archive lies in [output_dir]. *)
Definition downloaded : world :=
  mkWorld
    (<[ ["data"; "GSE1_RAW.tar"] :=
          File (Tar [(["GSM1.txt.gz"], Gzip member_text)]) ]>
       (<[ ["data"] := Dir ]> ∅))
    [].

(** After [tar.extractall]: the member lies in [main_dir]. *)
Definition member : path := ["data"; "GSE1"; "GSM1.txt.gz"].

Definition unpacked (text : string) : world :=
  mkWorld
    (<[ member := File (Gzip text) ]>
       (<[ ["data"; "GSE1"] := Dir ]> (<[ ["data"] := Dir ]> ∅)))
    [].

Definition again (w : world) : world := mkWorld (files w) [].

Definition extracted : world :=
  again (ExtractAndProcessFiles.run GSE downloaded).2.

Definition trimmed : world := again (TrimProbesTable.run GSE extracted).2.

Definition cleaned (listing_removed_raises : bool) : world :=
  again (CleanupOriginalFiles.run listing_removed_raises GSE trimmed).2.

(** A dataset whose only [Probes.tsv] is an empty file. *)
Definition empty_probes : world :=
  mkWorld
    (<[ ["data"; "GSE1"; "GSM1"; "Probes.tsv"] := File (Plain "") ]>
       (<[ ["data"; "GSE1"; "GSM1"] := Dir ]>
          (<[ ["data"; "GSE1"] := Dir ]> (<[ ["data"] := Dir ]> ∅))))
    [].

(** A dataset with one text file two directories down. *)
Definition nested : world :=
  mkWorld
    (<[ ["data"; "GSE1"; "a"; "b"; "x.txt"] := File (Plain "") ]>
       (<[ ["data"; "GSE1"; "a"; "b"] := Dir ]>
          (<[ ["data"; "GSE1"; "a"] := Dir ]>
             (<[ ["data"; "GSE1"] := Dir ]> (<[ ["data"] := Dir ]> ∅)))))
    [].

(** Tables of the examples. *)
Definition probes : DataFrame :=
  mkDataFrame [Name "Probe_Id"; Name "Definition"; Name "Probe_Sequence"]
              [[Text "p1"; Text "d"; Text "ACGT"]].

Definition heading : DataFrame :=
  mkDataFrame [Pos 0] [[Text "x"]; [Text "y"]].




(** A member that was decompressed: its text lies in its directory. *)
Definition decompressed : world :=
  mkWorld
    (<[ ["data"; "GSE1"; "GSM1"; "GSM1.txt"] := File (Plain member_text) ]>
       (<[ ["data"; "GSE1"; "GSM1"] := Dir ]>
          (<[ ["data"; "GSE1"] := Dir ]> (<[ ["data"] := Dir ]> ∅))))
    [].

(** Answers to the download request: the archive, and a body whose read
    breaks off. *)
Definition answer : DownloadDataset.response :=
  DownloadDataset.mkResponse 200
    (Ok (Tar [(["GSM1.txt.gz"], Gzip member_text)])).

Definition broken_answer : DownloadDataset.response :=
  DownloadDataset.mkResponse 200 (Raise ConnectionError).


(** A member whose tables are tables of words. *)
Definition words_text : string :=
  text_of ["junk"; "[Heading]"; "x"; "y"; "[Probes]";
           tsv ["Probe_Id"; "Definition"; "Probe_Sequence"];
           tsv ["p1"; "d"; "ACGT"]].

Definition words_member : world :=
  mkWorld
    (<[ ["data"; "GSE1"; "GSM1"; "GSM1.txt"] := File (Plain words_text) ]>
       (<[ ["data"; "GSE1"; "GSM1"] := Dir ]>
          (<[ ["data"; "GSE1"] := Dir ]> (<[ ["data"] := Dir ]> ∅))))
    [].

End Example.

(** * Properties of the pipeline *)

Section parser_facts.
Import pd Parser.

Lemma bind_Ok {A B} (f : A → result B) a : (Ok a ≫= f) = f a.
Proof. reflexivity. Qed.

Lemma bind_Raise {A B} (f : A → result B) e : (Raise e ≫= f) = Raise e.
Proof. reflexivity. Qed.

Lemma raises_bind_l {A B} (m : result A) (f : A → result B) :
  raises m = true → raises (m ≫= f) = true.
Proof. by destruct m. Qed.

Lemma read_csv_empty header : read_csv header "" = Raise EmptyDataError.
Proof. by destruct header. Qed.

Lemma scan_lines_app st l1 l2 :
  scan_lines st (l1 ++ l2) = scan_lines st l1 ≫= λ st', scan_lines st' l2.
Proof.
  revert st. induction l1 as [|l l1 IH]; intros st; [done|].
  simpl. destruct (step st l) as [st'|e]; simpl; [apply IH | done].
Qed.

(** A header line opens a section with an empty body. *)
Lemma step_opens st h st' :
  Py.startswith "[" h = true → step st h = Ok st' →
  write_key st' = Some (section_name h) ∧ fio st' = "".
Proof.
  intros Hh. unfold step. rewrite Hh.
  destruct (Py.truthy (write_key st)); simpl.
  - destruct (read_csv _ _); simpl; [|done]. by intros [= <-].
  - by intros [= <-].
Qed.

(** An open section named [k] whose body is still empty cannot be closed. *)
Lemma step_closes_empty st h :
  Py.truthy (write_key st) = true → fio st = "" →
  Py.startswith "[" h = true → raises (step st h) = true.
Proof.
  intros Hk Hf Hh. unfold step. rewrite Hh, Hk, Hf, read_csv_empty. done.
Qed.

Lemma finish_empty st :
  Py.truthy (write_key st) = true → fio st = "" → raises (finish st) = true.
Proof. intros Hk Hf. unfold finish. by rewrite Hk, Hf, read_csv_empty. Qed.

Lemma truthy_Some k : k ≠ "" → Py.truthy (Some k) = true.
Proof. by destruct k. Qed.

Lemma scan_empty_section st h post :
  Py.startswith "[" h = true → section_name h ≠ "" →
  (post = [] ∨ ∃ h' post', post = h' :: post' ∧ Py.startswith "[" h' = true) →
  raises (scan_lines st (h :: post) ≫= finish) = true.
Proof.
  intros Hh Hk Hpost. simpl.
  destruct (step st h) as [st'|e] eqn:Hstep; [|done]. simpl.
  destruct (step_opens _ _ _ Hh Hstep) as [Hkey Hfio].
  assert (Py.truthy (write_key st') = true) as Ht.
  { rewrite Hkey. by apply truthy_Some. }
  destruct Hpost as [->|(h' & post' & -> & Hh')]; simpl.
  - by apply finish_empty.
  - apply raises_bind_l, raises_bind_l. by apply step_closes_empty.
Qed.

End parser_facts.

Section string_facts.

Lemma string_app_assoc s t u : (s +:+ t) +:+ u = s +:+ (t +:+ u).
Proof. induction s as [|a s IH]; simpl; [done|]. unfold String.app in *. simpl. by rewrite IH. Qed.

Lemma string_app_nil_r s : s +:+ "" = s.
Proof. induction s as [|a s IH]; [done|]. unfold String.app in *. simpl. by rewrite IH. Qed.

Lemma string_app_cons a s t : String a s +:+ t = String a (s +:+ t).
Proof. done. Qed.

Lemma contains_app c s t :
  Py.contains c (s +:+ t) = Py.contains c s || Py.contains c t.
Proof.
  induction s as [|a s IH]; [done|].
  rewrite string_app_cons. simpl. rewrite IH. by rewrite orb_assoc.
Qed.

Lemma split_free c s : Py.contains c s = false → Py.split c s = [s].
Proof.
  induction s as [|a s IH]; simpl; [done|].
  intros [Ha Hs]%orb_false_iff. rewrite Ha, (IH Hs). done.
Qed.


Lemma join_cons c s l : l ≠ [] → Py.join c (s :: l) = s +:+ String c (Py.join c l).
Proof. by destruct l. Qed.


Lemma contains_join c d l :
  Forall (λ s, Py.contains c s = false) l → c ≠ d → Py.contains c (Py.join d l) = false.
Proof.
  intros Hfree Hcd. induction Hfree as [|s l Hs Hfree IH]; [done|].
  destruct l as [|s' l]; [done|].
  rewrite join_cons by done. rewrite contains_app, Hs.
  cbn [Py.contains orb]. rewrite IH. by rewrite bool_decide_eq_false_2.
Qed.



Lemma readlines_line l rest :
  Py.contains Py.LF l = false →
  Py.readlines (l +:+ String Py.LF rest) = (l +:+ String Py.LF "") :: Py.readlines rest.
Proof.
  induction l as [|a l IH]; simpl.
  - intros _. done.
  - intros [Ha Hl]%orb_false_iff. rewrite Ha, (IH Hl). done.
Qed.

End string_facts.

Section table_store_facts.
Import pd.

Lemma to_csv_cons r recs :
  foldr (λ r out, write_record r +:+ out) "" (r :: recs)
  = record_line r +:+ String Py.LF (foldr (λ r out, write_record r +:+ out) "" recs).
Proof. simpl. unfold write_record. by rewrite string_app_assoc. Qed.

Lemma readlines_records recs :
  Forall (λ r, Py.contains Py.LF (record_line r) = false) recs →
  Py.readlines (foldr (λ r out, write_record r +:+ out) "" recs)
  = write_record <$> recs.
Proof.
  induction 1 as [|r recs Hr _ IH]; [done|].
  rewrite to_csv_cons, readlines_line by done. by rewrite IH.
Qed.



(** A record that needs no quoting is its fields joined by tabs. *)
Lemma record_line_join r : r ≠ [""] → record_line r = Py.join Py.TAB r.
Proof. intros Hr. unfold record_line. by destruct r as [|[|] [|]]. Qed.

End table_store_facts.

Section roundtrip.
Import pd.

Lemma forallb_Forall {A} (f : A → bool) l :
  forallb f l = true ↔ Forall (λ x, f x = true) l.
Proof.
  induction l as [|x l IH]; simpl.
  - split; [constructor | done].
  - rewrite andb_true_iff, IH. split.
    + intros [??]. by constructor.
    + by inversion 1.
Qed.

Lemma plain_records_Forall df :
  plain_records df = true →
  Forall (λ r, r ≠ [""] ∧ Forall (λ f, Py.contains Py.LF f = false) r) (to_records df).
Proof.
  unfold plain_records. rewrite forallb_Forall. intros H.
  eapply Forall_impl; [exact H|]. clear H.
  intros r [Hq Hf]%andb_true_iff. split.
  - apply negb_true_iff, bool_decide_eq_false in Hq. done.
  - apply forallb_Forall in Hf. eapply Forall_impl; [done|].
    intros f. rewrite negb_true_iff. unfold needs_quoting.
    rewrite !orb_false_iff. by intros [[[_ ?] _] _].
Qed.

(** C5 (amended): [to_csv] always writes a first line of column labels, the
    names of named columns or the decimal positions of positional ones,
    and after it one line for each data row, the fields joined by tabs. *)
Theorem to_csv_lines df :
  plain_records df = true →
  Py.readlines (to_csv df)
  = (tsv (render_label <$> columns df) +:+ String Py.LF "")
    :: ((λ row, tsv (render_row row) +:+ String Py.LF "") <$> rows df).
Proof.
  intros Hplain%plain_records_Forall. unfold to_csv.
  rewrite readlines_records.
  - unfold to_records in *. rewrite fmap_cons. inversion_clear Hplain as [|?? [Hh _] Hrows].
    f_equal.
    + unfold write_record. by rewrite record_line_join.
    + rewrite <-list_fmap_compose. apply Forall_fmap_ext.
      rewrite Forall_fmap in Hrows. eapply Forall_impl; [done|].
      intros row [Hrow _]. simpl. unfold write_record. by rewrite record_line_join.
  - eapply Forall_impl; [done|]. intros r [Hr Hf].
    rewrite record_line_join by done. by apply contains_join.
Qed.

Lemma to_csv_lines_witness :
  Py.readlines (to_csv Example.heading)
  = (tsv (render_label <$> columns Example.heading) +:+ String Py.LF "")
    :: ((λ row, tsv (render_row row) +:+ String Py.LF "")
          <$> rows Example.heading).
Proof. apply (to_csv_lines Example.heading). reflexivity. Defined.

(** C5 (as claimed) fails: the table of an inner [Heading] section has
    positional columns only, and its file starts with the label row ["0"]. *)
Lemma positional_table_written_with_labels :
  Parser.parse Example.member_text
  = Ok [("Heading", Example.heading);
        ("Probes", Example.probes);
        ("Controls", mkDataFrame [Name "c"] [[Text "1"]])]
  ∧ to_csv Example.heading = text_of ["0"; "x"; "y"]
  ∧ OS.files Example.extracted !! ["data"; "GSE1"; "GSM1"; "Heading.tsv"]
    = Some (OS.File (OS.Plain (text_of ["0"; "x"; "y"]))).
Proof. split_and!; vm_compute; reflexivity. Qed.






















End roundtrip.

Section drop_facts.
Import pd.










End drop_facts.

Section io_facts.
Import OS pd.

Lemma io_bind_eq {A B} (m : io A) (f : A → io B) w :
  (m ≫= f) w = match m w with
               | (Ok a, w') => f a w'
               | (Raise e, w') => (Raise e, w')
               end.
Proof. reflexivity. Qed.

Lemma read_file p data w :
  files w !! p = Some (File data) → read p w = (Ok data, w).
Proof. intros H. unfold read. rewrite io_bind_eq. simpl. by rewrite H. Qed.

Lemma read_text_plain p text w :
  files w !! p = Some (File (Plain text)) → Py.utf8 text = true →
  read_text p w = (Ok text, w).
Proof.
  intros H Hutf8. unfold read_text. rewrite io_bind_eq, (read_file _ _ _ H).
  unfold lift, decode. by rewrite Hutf8.
Qed.

Lemma read_text_undecoded p text w :
  files w !! p = Some (File (Plain text)) → Py.utf8 text = false →
  read_text p w = (Raise UnicodeDecodeError, w).
Proof.
  intros H Hutf8. unfold read_text. rewrite io_bind_eq, (read_file _ _ _ H).
  unfold lift, decode. by rewrite Hutf8.
Qed.

Lemma is_dir_exists fs p : is_dir fs p = true → exists_in fs p = true.
Proof.
  unfold is_dir, exists_in. intros [->|H]%orb_true_iff; [done|].
  apply orb_true_iff. right. apply bool_decide_eq_true.
  destruct (fs !! p) as [[]|]; by eauto.
Qed.

Lemma write_ok p data w :
  is_dir (files w) (parent p) = true → is_dir (files w) p = false →
  write p data w
  = (Ok (), mkWorld (<[p := File data]> (files w)) (log w ++ [Write p data])).
Proof.
  intros Hparent Hp. unfold write. rewrite io_bind_eq. simpl.
  by rewrite (is_dir_exists _ _ Hparent), Hparent, Hp.
Qed.

Lemma parent_with_name p n : parent (with_name p n) = parent p.
Proof. unfold with_name, parent. by rewrite removelast_last. Qed.


End io_facts.

Section parser_claims.
Import OS pd Parser.

(** C1: at the end of the text a last section named [Heading] is read like
    any other section, its first line taken for the names of the columns;
    the same section followed by another one is read without a header. *)
Theorem last_Heading_section_read_with_header :
  parse (text_of ["[Heading]"; "x"; "y"])
  = Ok [("Heading", mkDataFrame [Name "x"] [[Text "y"]])]
  ∧ parse (text_of ["[Heading]"; "x"; "y"; "[A]"; "c"])
    = Ok [("Heading", mkDataFrame [Pos 0] [[Text "x"]; [Text "y"]]);
          ("A", mkDataFrame [Name "c"] [])].
Proof. split; vm_compute; reflexivity. Qed.

(** C2 (amended): a text with a section of an empty body, in the middle or
    at the end, makes the parser raise, and [process_text_file] then leaves
    the files as they were: no table is written. *)
Theorem empty_section_raises file_path w text pre h post :
  files w !! file_path = Some (File (Plain text)) →
  Py.readlines (Py.universal_newlines text) = pre ++ h :: post →
  Py.startswith "[" h = true →
  section_name h ≠ "" →
  (post = [] ∨ ∃ h' post', post = h' :: post' ∧ Py.startswith "[" h' = true) →
  raises (parse text) = true
  ∧ ∃ e, ExtractAndProcessFiles.process_text_file file_path w = (Raise e, w).
Proof.
  intros Hfile Hlines Hh Hname Hpost.
  assert (raises (parse text) = true) as Hraises.
  { unfold parse. rewrite Hlines, scan_lines_app.
    destruct (scan_lines start pre) as [st|e]; [|done]. simpl.
    by apply scan_empty_section. }
  split; [done|].
  unfold ExtractAndProcessFiles.process_text_file. rewrite io_bind_eq.
  destruct (Py.utf8 text) eqn:Hutf8.
  - rewrite (read_text_plain _ _ _ Hfile Hutf8), io_bind_eq.
    unfold lift at 1. destruct (parse text) as [dfs|e]; [done|]. by exists e.
  - rewrite (read_text_undecoded _ _ _ Hfile Hutf8). by eexists.
Qed.

Lemma empty_section_raises_witness :
  raises (parse (text_of ["[A]"; "c"; "1"; "[B]"])) = true
  ∧ ∃ e,
      ExtractAndProcessFiles.process_text_file
        ["data"; "GSE1"; "GSM1"; "GSM1.txt"]
        (mkWorld {[ ["data"; "GSE1"; "GSM1"; "GSM1.txt"] :=
                      File (Plain (text_of ["[A]"; "c"; "1"; "[B]"])) ]} [])
      = (Raise e,
         mkWorld {[ ["data"; "GSE1"; "GSM1"; "GSM1.txt"] :=
                      File (Plain (text_of ["[A]"; "c"; "1"; "[B]"])) ]} []).
Proof.
  apply (empty_section_raises _ _ _
           [text_of ["[A]"]; text_of ["c"]; text_of ["1"]]
           (text_of ["[B]"]) []);
    [vm_compute; reflexivity.. | discriminate | by left].
Defined.

(** C2 (as claimed) fails: an empty body gives no table but
    [EmptyDataError], at the end of the text and in the middle, under
    [Heading] and under any other name. *)
Lemma empty_section_gives_no_table :
  parse (text_of ["[A]"]) = Raise EmptyDataError
  ∧ parse (text_of ["[A]"; "[B]"; "c"]) = Raise EmptyDataError
  ∧ parse (text_of ["[Heading]"; "[B]"; "c"]) = Raise EmptyDataError
  ∧ parse (text_of ["[B]"; "c"; "[Heading]"]) = Raise EmptyDataError.
Proof. split_and!; vm_compute; reflexivity. Qed.

(** The examples of the parser's description: two sections side by side,
    lines before the first header, and a name that comes twice. *)
Example parser_section_isolation :
  parse (text_of ["[A]"; tsv ["a"; "b"]; "[B]"; tsv ["1"; "2"]; tsv ["3"; "4"]])
  = Ok [("A", mkDataFrame [Name "a"; Name "b"] []);
        ("B", mkDataFrame [Name "1"; Name "2"] [[Text "3"; Text "4"]])].
Proof. vm_compute. reflexivity. Qed.

Example parser_pre_header_discard :
  parse (text_of ["garbage"; "[A]"; tsv ["1"; "2"]])
  = Ok [("A", mkDataFrame [Name "1"; Name "2"] [])].
Proof. vm_compute. reflexivity. Qed.

Example parser_last_occurrence_wins :
  parse (text_of ["[A]"; "x"; "p"; "[B]"; "y"; "[A]"; "z"; "q"])
  = Ok [("A", mkDataFrame [Name "z"] [[Text "q"]]);
        ("B", mkDataFrame [Name "y"] [])].
Proof. vm_compute. reflexivity. Qed.

End parser_claims.

Section trim_facts.
Import OS pd TrimProbesTable.




End trim_facts.

Section glob_facts.
Import OS.

Lemma elem_of_keys (fs : gmap path node) p :
  p ∈ (map_to_list fs).*1 ↔ is_Some (fs !! p).
Proof.
  rewrite list_elem_of_fmap. split.
  - intros [[q x] [-> Hq%elem_of_map_to_list]]. by eexists.
  - intros [x Hx]. exists (p, x). split; [done|]. by apply elem_of_map_to_list.
Qed.

Lemma elem_of_descendants fs d p :
  p ∈ descendants fs d ↔ is_Some (fs !! p) ∧ below d p.
Proof. unfold descendants. rewrite list_elem_of_filter, elem_of_keys. tauto. Qed.

Lemma elem_of_children fs d p :
  p ∈ children fs d ↔ is_Some (fs !! p) ∧ p ≠ [] ∧ parent p = d.
Proof. unfold children. rewrite list_elem_of_filter, elem_of_keys. tauto. Qed.

Lemma elem_of_rglob fs d pat p :
  p ∈ rglob fs d pat ↔
  is_dir fs d = true ∧ is_Some (fs !! p) ∧ below d p ∧ fnmatch pat (name p) = true.
Proof.
  unfold rglob. destruct (is_dir fs d).
  - rewrite list_elem_of_filter, elem_of_descendants. tauto.
  - rewrite elem_of_nil. split; [done|]. by intros [? _].
Qed.

Lemma NoDup_descendants fs d : NoDup (descendants fs d).
Proof. apply NoDup_filter, NoDup_fst_map_to_list. Qed.

Lemma NoDup_rglob fs d pat : NoDup (rglob fs d pat).
Proof.
  unfold rglob. destruct (is_dir fs d); [|constructor].
  apply NoDup_filter, NoDup_descendants.
Qed.

Lemma below_nonempty d p : below d p → p ≠ [].
Proof.
  intros [Hpre Hne] ->. apply Hne. symmetry. by apply prefix_nil_inv.
Qed.

Lemma parent_name p : p ≠ [] → p = parent p ++ [name p].
Proof.
  intros Hp. destruct (exists_last Hp) as (q & n & ->).
  unfold parent, name. by rewrite removelast_last, last_snoc.
Qed.

End glob_facts.

Section output_facts.
Import OS TrimProbesTable.

Lemma trimmed_file_path_Probes p :
  name p = "Probes.tsv" → trimmed_file_path p = parent p ++ ["Probes_trimmed.tsv"].
Proof. intros Hn. unfold trimmed_file_path, with_name, stem. by rewrite Hn. Qed.

(** C10: [output()] is worked out from the files that exist when it is
    called: its targets are the [Probes_trimmed.tsv] siblings of the paths
    named [Probes.tsv] below [main_dir], one for each, and there is none
    when no such path exists. *)
Theorem output_follows_files t fs :
  (∀ target, target ∈ output t fs ↔
     ∃ probes_file,
       is_dir fs (main_dir t) = true ∧ is_Some (fs !! probes_file) ∧
       below (main_dir t) probes_file ∧ name probes_file = "Probes.tsv" ∧
       target = parent probes_file ++ ["Probes_trimmed.tsv"])
  ∧ NoDup (output t fs)
  ∧ length (output t fs) = length (rglob fs (main_dir t) (Exactly "Probes.tsv"))
  ∧ ((∀ p, is_Some (fs !! p) → below (main_dir t) p → name p ≠ "Probes.tsv") →
     output t fs = []).
Proof.
  split_and!.
  - intros target. unfold output. rewrite list_elem_of_fmap. split.
    + intros (p & -> & (Hd & Hp & Hb & Hn%bool_decide_eq_true)%elem_of_rglob).
      exists p. split_and!; try done. by apply trimmed_file_path_Probes.
    + intros (p & Hd & Hp & Hb & Hn & ->). exists p. split.
      * by rewrite trimmed_file_path_Probes.
      * apply elem_of_rglob. split_and!; try done. by apply bool_decide_eq_true.
  - unfold output. apply NoDup_fmap_2_strong; [|apply NoDup_rglob].
    intros p q (_ & _ & Hp & Hpn%bool_decide_eq_true)%elem_of_rglob
               (_ & _ & Hq & Hqn%bool_decide_eq_true)%elem_of_rglob Heq.
    rewrite !trimmed_file_path_Probes in Heq by done.
    apply app_inj_tail in Heq as [Heq _].
    rewrite (parent_name p), (parent_name q) by (by eapply below_nonempty).
    by rewrite Heq, Hpn, Hqn.
  - unfold output. by rewrite length_fmap.
  - intros Hnone. unfold output.
    destruct (rglob fs (main_dir t) (Exactly "Probes.tsv")) as [|p l] eqn:Hl; [done|].
    assert (p ∈ rglob fs (main_dir t) (Exactly "Probes.tsv")) as Hp.
    { rewrite Hl. by left. }
    apply elem_of_rglob in Hp as (_ & Hp & Hb & Hn%bool_decide_eq_true).
    by destruct (Hnone p).
Qed.

(** Before the archive is unpacked the list is empty; afterwards it names
    the one trimmed file. *)
Example output_before_and_after :
  output Example.GSE (files Example.downloaded) = []
  ∧ output Example.GSE (files Example.extracted)
    = [["data"; "GSE1"; "GSM1"; "Probes_trimmed.tsv"]].
Proof. split; vm_compute; reflexivity. Qed.

End output_facts.

Section prune_errors.
Import OS pd TrimProbesTable.

Lemma parse_rows_raises n records e :
  parse_rows n records = Raise e → e = ParserError.
Proof.
  induction records as [|r rs IH]; simpl; [done|].
  unfold parse_row at 1. case_decide; simpl; [by intros [= <-]|].
  destruct (parse_rows n rs); simpl; [done|]. intros [= <-]. by apply IH.
Qed.

Lemma read_csv_raises header text e :
  read_csv header text = Raise e → e = EmptyDataError ∨ e = ParserError.
Proof.
  unfold read_csv. destruct (tokenize text) as [|first rest].
  - intros [= <-]. by left.
  - destruct header.
    + destruct (parse_rows _ rest) eqn:H; simpl; [done|].
      intros [= <-]. right. by eapply parse_rows_raises.
    + destruct (parse_rows _ (first :: rest)) eqn:H; simpl; [done|].
      intros [= <-]. right. by eapply parse_rows_raises.
Qed.

Lemma write_not_found p data w : raised_not_found (write p data w).1 = false.
Proof.
  unfold write. rewrite io_bind_eq. simpl.
  by repeat (case_match; simpl; try done).
Qed.

Lemma trim_not_found p w : raised_not_found (trim p w).1 = false.
Proof.
  unfold trim, read_text, read. rewrite !io_bind_eq. simpl.
  destruct (files w !! p) as [[data|]|]; simpl; try done.
  destruct data; simpl; try done.
  destruct (Py.utf8 text); simpl; [|done].
  rewrite !io_bind_eq. unfold lift at 1.
  destruct (read_csv HeaderInfer text) as [df|e] eqn:Hread; simpl.
  - apply write_not_found.
  - by destruct (read_csv_raises _ _ _ Hread) as [-> | ->].
Qed.

Lemma for_each_trim_not_found l w :
  raised_not_found (for_each l trim w).1 = false.
Proof.
  revert w. induction l as [|p l IH]; intros w; simpl; [done|].
  rewrite io_bind_eq. pose proof (trim_not_found p w) as Hp.
  destruct (trim p w) as [[[]|e] w1]; simpl in *; [apply IH | done].
Qed.

(** C7 (amended): [run] raises its own [FileNotFoundError] exactly when the
    search finds no [Probes.tsv]; it is raised before anything is written,
    and its message names [Probes.tsv] and [main_dir]. *)
Theorem run_not_found_iff_no_probes t w :
  (raised_not_found (run t w).1 = true
   ↔ rglob (files w) (main_dir t) (Exactly "Probes.tsv") = [])
  ∧ (rglob (files w) (main_dir t) (Exactly "Probes.tsv") = [] →
     run t w
     = (Raise (FileNotFoundError
                 ("Файлы Probes.tsv не найдены в подкаталогах "
                  +:+ str (main_dir t))), w)).
Proof.
  unfold run. rewrite io_bind_eq. simpl.
  destruct (rglob (files w) (main_dir t) (Exactly "Probes.tsv")) as [|p l] eqn:Hl.
  - by split.
  - split; [|done]. split; [|done].
    by rewrite for_each_trim_not_found.
Qed.

(** C7 (as claimed) fails: with one [Probes.tsv] found, an empty file, [run]
    raises all the same, from [read_csv]. *)
Lemma run_raises_on_empty_probes :
  rglob (files Example.empty_probes) (main_dir Example.GSE) (Exactly "Probes.tsv")
  = [["data"; "GSE1"; "GSM1"; "Probes.tsv"]]
  ∧ run Example.GSE Example.empty_probes
    = (Raise EmptyDataError, Example.empty_probes).
Proof. split; vm_compute; reflexivity. Qed.

End prune_errors.

Section sweep_facts.
Import OS CleanupOriginalFiles.

Lemma unlink_ok p w w1 :
  unlink p w = (Ok (), w1) →
  (∃ data, files w !! p = Some (File data)) ∧ files w1 = delete p (files w)
  ∧ log w1 = log w ++ [Unlink p].
Proof.
  unfold unlink. rewrite io_bind_eq. simpl.
  destruct (files w !! p) as [[data|]|]; try done.
  intros [= <-]. eauto.
Qed.

Lemma for_each_unlink_ok l w w1 :
  for_each l unlink w = (Ok (), w1) →
  (∀ q, files w1 !! q = if decide (q ∈ l) then None else files w !! q)
  ∧ (∀ p, p ∈ l → ∃ data, files w !! p = Some (File data)).
Proof.
  revert w. induction l as [|p l IH]; intros w; simpl.
  - intros [= <-]. split; [done|]. by intros p Hp%elem_of_nil.
  - rewrite io_bind_eq. destruct (unlink p w) as [[[]|e] wp] eqn:Hp; [|done].
    apply unlink_ok in Hp as ([data Hdata] & Hfiles & _).
    intros [Hlook Hin]%IH. split.
    + intros q. rewrite Hlook, Hfiles.
      destruct (decide (q ∈ l)) as [Hq|Hq], (decide (q ∈ p :: l)) as [Hq'|Hq'];
        try done.
      * destruct Hq'. by right.
      * apply elem_of_cons in Hq' as [->|?]; [|done]. apply lookup_delete_eq.
      * apply lookup_delete_ne. intros ->. apply Hq'. by left.
    + intros q [->|Hq]%elem_of_cons; [by eauto|].
      destruct (Hin q Hq) as [data' Hq']. rewrite Hfiles in Hq'.
      apply lookup_delete_Some in Hq' as [_ ?]. by eauto.
Qed.

Lemma children_nil_mono (fs fs' : gmap path node) d :
  fs' ⊆ fs → children fs d = [] → children fs' d = [].
Proof.
  intros Hsub Hnil. destruct (children fs' d) as [|p l] eqn:Hl; [done|].
  assert (p ∈ children fs' d) as Hp by (rewrite Hl; left).
  apply elem_of_children in Hp as ([x Hx] & Hne & Hpar).
  assert (p ∈ children fs d) as Hp'.
  { apply elem_of_children. split_and!; try done.
    exists x. by eapply lookup_weaken. }
  rewrite Hnil in Hp'. by apply elem_of_nil in Hp'.
Qed.

Lemma remove_if_empty_ok b d w w1 :
  remove_if_empty b d w = (Ok (), w1) →
  (children (files w) d = [] ∧ files w1 = delete d (files w))
  ∨ (children (files w) d ≠ [] ∧ w1 = w).
Proof.
  unfold remove_if_empty. rewrite io_bind_eq. simpl.
  destruct (children (files w) d) as [|p l] eqn:Hc.
  - rewrite io_bind_eq. simpl. destruct b; [done|].
    intros [= <-]. by left.
  - intros [= <-]. by right.
Qed.

Lemma for_each_remove_if_empty_ok b l w w3 :
  for_each l (remove_if_empty b) w = (Ok (), w3) →
  files w3 ⊆ files w
  ∧ ∀ d, d ∈ l → children (files w) d = [] → files w3 !! d = None.
Proof.
  revert w. induction l as [|d0 l IH]; intros w; simpl.
  - intros [= <-]. split; [done|]. by intros d Hd%elem_of_nil.
  - rewrite io_bind_eq.
    destruct (remove_if_empty b d0 w) as [[[]|e] wa] eqn:Hd0; [|done].
    intros [Hsub Hgone]%IH.
    assert (files wa ⊆ files w) as Hsub0.
    { apply remove_if_empty_ok in Hd0 as [[_ ->]|[_ ->]]; [apply delete_subseteq|done]. }
    split; [by etrans|].
    intros d [->|Hd]%elem_of_cons Hempty.
    + apply remove_if_empty_ok in Hd0 as [[_ Hdel]|[? _]]; [|done].
      destruct (files w3 !! d0) as [x|] eqn:Hx; [|done].
      eapply lookup_weaken in Hx; [|done].
      by rewrite Hdel, lookup_delete_eq in Hx.
    + apply Hgone; [done|]. by eapply children_nil_mono.
Qed.

Lemma lookup_makedirs_fold (fs : gmap path node) l q x :
  foldr (λ p, <[p := Dir]>) fs l !! q = Some x →
  (q ∈ l ∧ x = Dir) ∨ fs !! q = Some x.
Proof.
  induction l as [|p l IH]; simpl; [by right|].
  destruct (decide (p = q)) as [->|Hne].
  - rewrite lookup_insert_eq. intros [= <-]. left. split; [by left|done].
  - rewrite lookup_insert_ne by done.
    intros [[? ?]|?]%IH; [left; split; [by right|done] | by right].
Qed.

Lemma elem_of_ancestors_and_self q p :
  q ∈ ancestors_and_self p → q `prefix_of` p.
Proof.
  unfold ancestors_and_self. intros (n & -> & _)%list_elem_of_fmap.
  exists (drop n p). by rewrite take_drop.
Qed.

Lemma makedirs_ok p w w1 :
  makedirs p w = (Ok (), w1) →
  log w1 = log w ++ [Makedirs p]
  ∧ ∀ q x, files w1 !! q = Some x →
      (q `prefix_of` p ∧ x = Dir) ∨ files w !! q = Some x.
Proof.
  unfold makedirs. rewrite io_bind_eq. simpl.
  destruct (existsb _ _); [done|]. intros [= <-]. split; [done|].
  intros q x. simpl.
  intros [[?%elem_of_ancestors_and_self ?]|?]%lookup_makedirs_fold; by eauto.
Qed.

Lemma write_inv p data w w1 :
  write p data w = (Ok (), w1) →
  w1 = mkWorld (<[p := File data]> (files w)) (log w ++ [Write p data]).
Proof.
  unfold write. rewrite io_bind_eq. simpl.
  repeat (case_match; try done). by intros [= <-].
Qed.

Lemma target_write_ok p text w w1 :
  target_write p text w = (Ok (), w1) →
  files w1 !! p = Some (File (Plain text))
  ∧ ∀ q x, files w1 !! q = Some x →
      q = p ∨ q `prefix_of` parent p ∨ files w !! q = Some x.
Proof.
  unfold target_write. rewrite io_bind_eq.
  destruct (makedirs (parent p) w) as [[[]|e] wm] eqn:Hm.
  - intros ->%write_inv. simpl. split; [apply lookup_insert_eq|].
    intros q x. destruct (decide (p = q)) as [->|Hne]; [by left|].
    rewrite lookup_insert_ne by done. intros Hq.
    destruct (makedirs_ok _ _ _ Hm) as [_ Hmk].
    destruct (Hmk _ _ Hq) as [[? _]|?]; by eauto.
  - intros ->%write_inv. simpl. split; [apply lookup_insert_eq|].
    intros q x. destruct (decide (p = q)) as [->|Hne]; [by left|].
    rewrite lookup_insert_ne by done. by eauto.
Qed.

Lemma below_not_prefix d p : below d p → ¬ p `prefix_of` d.
Proof.
  intros [Hdp Hne] Hpd. apply Hne.
  by apply (anti_symm prefix).
Qed.

Lemma below_child d p q : below d p → q ≠ [] → parent q = p → below d q.
Proof.
  intros [Hdp Hne] Hq Hpar. rewrite (parent_name q Hq), Hpar. split.
  - by apply prefix_app_r.
  - intros Heq. apply Hne. apply (anti_symm prefix); [|done].
    rewrite <-Heq. by apply prefix_app_r.
Qed.

Lemma is_dir_lookup (fs fs' : gmap path node) p :
  fs' !! p = fs !! p → is_dir fs' p = is_dir fs p.
Proof. unfold is_dir. by intros ->. Qed.

End sweep_facts.

Section sweep_theorem.
Import OS CleanupOriginalFiles.

Lemma elem_of_glob_dirs fs d p :
  is_dir fs d = true → is_dir fs p = true → is_Some (fs !! p) → below d p →
  p ∈ glob_dirs fs d.
Proof.
  intros Hd Hp Hsome Hb. unfold glob_dirs. rewrite Hd. right.
  rewrite merge_sort_Permutation. apply list_elem_of_filter. split; [done|].
  by apply elem_of_descendants.
Qed.

(** What the two deletion loops leave. *)
Lemma deletions_ok t w w1 w2 :
  is_dir (files w) (main_dir t) = true →
  for_each (rglob (files w) (main_dir t) (Ending ".txt")) unlink w = (Ok (), w1) →
  for_each (rglob (files w1) (main_dir t) (Ending ".gz")) unlink w1 = (Ok (), w2) →
  is_dir (files w2) (main_dir t) = true
  ∧ files w2 ⊆ files w
  ∧ (∀ p, is_Some (files w2 !! p) → below (main_dir t) p → raw_name (name p) = false)
  ∧ (∀ d, files w !! d = Some Dir → files w2 !! d = Some Dir).
Proof.
  intros Hmain [H1 H1f]%for_each_unlink_ok [H2 H2f]%for_each_unlink_ok.
  assert (∀ pat fs, main_dir t ∉ rglob fs (main_dir t) pat) as Hself.
  { intros pat fs (_ & _ & [_ Hne] & _)%elem_of_rglob. done. }
  assert (files w1 !! main_dir t = files w !! main_dir t) as Hm1.
  { rewrite H1. by rewrite decide_False. }
  assert (files w2 !! main_dir t = files w !! main_dir t) as Hm2.
  { rewrite H2. by rewrite decide_False. }
  assert (is_dir (files w1) (main_dir t) = true) as Hmain1.
  { by rewrite (is_dir_lookup _ _ _ Hm1). }
  assert (∀ q x, files w2 !! q = Some x →
            files w1 !! q = Some x ∧ files w !! q = Some x
            ∧ (q ∉ rglob (files w) (main_dir t) (Ending ".txt"))
            ∧ (q ∉ rglob (files w1) (main_dir t) (Ending ".gz"))) as Hkept.
  { intros q x. rewrite H2. case_decide; [done|]. intros Hq. split; [done|].
    revert Hq. rewrite H1. case_decide; [done|]. done. }
  split_and!.
  - by rewrite (is_dir_lookup _ _ _ Hm2).
  - apply map_subseteq_spec. intros q x Hq. apply Hkept in Hq as (_ & ? & _); done.
  - intros p [x Hp] Hb. apply Hkept in Hp as (Hp1 & Hp0 & Hn1 & Hn2).
    unfold raw_name. apply orb_false_iff. split.
    + destruct (fnmatch (Ending ".txt") (name p)) eqn:Hm; [|done].
      destruct Hn1. apply elem_of_rglob. by eauto.
    + destruct (fnmatch (Ending ".gz") (name p)) eqn:Hm; [|done].
      destruct Hn2. apply elem_of_rglob. by eauto.
  - intros d Hd. rewrite H2. case_decide as Hin2.
    { apply H2f in Hin2 as [data Hdata]. revert Hdata. rewrite H1.
      case_decide; [done|]. by rewrite Hd. }
    rewrite H1. case_decide as Hin1; [|done].
    apply H1f in Hin1 as [data Hdata]. by rewrite Hd in Hdata.
Qed.

Lemma name_output t : name (output t) = "cleanup_done.txt".
Proof. unfold output, name. by rewrite last_snoc. Qed.

Lemma parent_output t : parent (output t) = main_dir t.
Proof. unfold output, parent. by rewrite removelast_last. Qed.

Lemma below_output t : below (main_dir t) (output t).
Proof.
  unfold output. split; [by apply prefix_app_r|].
  intros Heq. apply (f_equal length) in Heq. rewrite length_app in Heq.
  simpl in Heq. lia.
Qed.

Lemma sweep_marker_only b t w w' :
  is_dir (files w) (main_dir t) = true →
  run b t w = (Ok (), w') →
  files w' !! output t = Some (File (Plain (text_of ["Cleanup completed."])))
  ∧ (∀ p, is_Some (files w' !! p) → below (main_dir t) p →
          raw_name (name p) = true → p = output t)
  ∧ (∀ d, files w !! d = Some Dir → below (main_dir t) d →
          (∀ p, p ∈ children (files w) d → raw_name (name p) = true) →
          files w' !! d = None).
Proof.
  intros Hmain. unfold run. rewrite io_bind_eq. simpl.
  rewrite io_bind_eq.
  destruct (for_each (rglob (files w) _ _) unlink w) as [[[]|e1] w1] eqn:H1; [|done].
  rewrite io_bind_eq. simpl. rewrite io_bind_eq.
  destruct (for_each (rglob (files w1) _ _) unlink w1) as [[[]|e2] w2] eqn:H2; [|done].
  rewrite io_bind_eq. simpl. rewrite io_bind_eq.
  destruct (for_each (glob_dirs (files w2) _) _ w2) as [[[]|e3] w3] eqn:H3; [|done].
  intros [Hmarker Hnew]%target_write_ok.
  destruct (deletions_ok _ _ _ _ Hmain H1 H2) as (Hmain2 & Hsub2 & Hraw & Hdirs).
  apply for_each_remove_if_empty_ok in H3 as [Hsub3 Hgone].
  rewrite parent_output in Hnew.
  split_and!; [done|..].
  - intros p [x Hp] Hb Hn.
    destruct (Hnew _ _ Hp) as [->|[Hpre|Hp3]]; [done|..].
    + by destruct (below_not_prefix _ _ Hb).
    + eapply lookup_weaken in Hp3; [|done].
      rewrite Hraw in Hn; [done|by eexists|done].
  - intros d Hd Hb Hchildren.
    assert (files w2 !! d = Some Dir) as Hd2 by by apply Hdirs.
    assert (children (files w2) d = []) as Hempty.
    { destruct (children (files w2) d) as [|p l] eqn:Hl; [done|].
      assert (p ∈ children (files w2) d) as Hp by (rewrite Hl; left).
      pose proof Hp as ([x Hx] & Hne & Hpar)%elem_of_children.
      assert (raw_name (name p) = true) as Hn.
      { apply Hchildren, elem_of_children. split_and!; try done.
        exists x. by eapply lookup_weaken. }
      rewrite Hraw in Hn; [done|by eexists|]. by eapply below_child. }
    assert (files w3 !! d = None) as Hd3.
    { apply Hgone; [|done]. apply elem_of_glob_dirs; try done.
      unfold is_dir. rewrite Hd2. apply orb_true_r. }
    destruct (files w' !! d) as [x|] eqn:Hx; [|done].
    destruct (Hnew _ _ Hx) as [->|[Hpre|Hx3]].
    + assert (raw_name (name (output t)) = false) as Hn.
      { apply Hraw; [by eexists | apply below_output]. }
      by rewrite name_output in Hn.
    + by destruct (below_not_prefix _ _ Hb).
    + by rewrite Hd3 in Hx3.
Qed.

(** C3 (amended): when [run] completes on a dataset directory, its own
    marker [cleanup_done.txt] is there and is the only path below [main_dir]
    whose name ends in [.txt] or [.gz]; and every directory below [main_dir]
    that held nothing but such files is gone. *)
Theorem sweep_leaves_its_marker b t w w' :
  is_dir (files w) (main_dir t) = true →
  run b t w = (Ok (), w') →
  files w' !! output t = Some (File (Plain (text_of ["Cleanup completed."])))
  ∧ (∀ p, is_Some (files w' !! p) → below (main_dir t) p →
          raw_name (name p) = true → p = output t)
  ∧ (∀ d, files w !! d = Some Dir → below (main_dir t) d →
          (∀ p, p ∈ children (files w) d → raw_name (name p) = true) →
          files w' !! d = None).
Proof. apply sweep_marker_only. Qed.

Lemma sweep_leaves_its_marker_witness :
  files (Example.cleaned false) !! output Example.GSE
  = Some (File (Plain (text_of ["Cleanup completed."])))
  ∧ ∀ p, is_Some (files (Example.cleaned false) !! p) →
         below (main_dir Example.GSE) p →
         raw_name (name p) = true → p = output Example.GSE.
Proof.
  destruct (sweep_leaves_its_marker false Example.GSE Example.trimmed
              (run false Example.GSE Example.trimmed).2)
    as (Hmarker & Honly & _); [vm_compute; reflexivity..|].
  split; [exact Hmarker | exact Honly].
Defined.

(** C3 (as claimed) fails: whatever the walk does with a removed directory,
    a completed run leaves a [.txt] file, its marker; and where the walk goes
    on after a removal, the directory [a] that held only the emptied
    directory [b] is left without entries. *)
Lemma sweep_leaves_a_txt_file :
  (∀ b, ∃ w',
     run b Example.GSE Example.trimmed = (Ok (), w')
     ∧ rglob (files w') (main_dir Example.GSE) (Ending ".txt")
       = [output Example.GSE])
  ∧ (∃ w',
       run false Example.GSE Example.nested = (Ok (), w')
       ∧ files w' !! ["data"; "GSE1"; "a"] = Some Dir
       ∧ children (files w') ["data"; "GSE1"; "a"] = []).
Proof.
  split.
  - intros b. exists (run b Example.GSE Example.trimmed).2.
    destruct b; split; vm_compute; reflexivity.
  - exists (run false Example.GSE Example.nested).2.
    split_and!; vm_compute; reflexivity.
Qed.

(** C4: the marker of the unpacking stage exists before the clean-up and is
    deleted by it, so that stage is no longer complete afterwards. *)
Theorem sweep_deletes_the_unpack_marker :
  complete (files Example.trimmed) [ExtractAndProcessFiles.output Example.GSE]
  = true
  ∧ ∀ b,
      (run b Example.GSE Example.trimmed).1 = Ok ()
      ∧ complete (files (Example.cleaned b))
                 [ExtractAndProcessFiles.output Example.GSE]
        = false.
Proof.
  split; [vm_compute; reflexivity|].
  intros b. destruct b; split; vm_compute; reflexivity.
Qed.

(** The same for every dataset: no completed clean-up keeps
    [processed_done.txt]. *)
Lemma sweep_never_keeps_the_unpack_marker b t w w' :
  is_dir (files w) (main_dir t) = true →
  run b t w = (Ok (), w') →
  target_exists (files w') (ExtractAndProcessFiles.output t) = false.
Proof.
  intros Hmain Hrun.
  destruct (sweep_marker_only b t w w' Hmain Hrun) as (_ & Honly & _).
  apply bool_decide_eq_false. intros Hex.
  assert (ExtractAndProcessFiles.output t = output t) as Heq.
  { apply Honly; [done| |].
    - unfold ExtractAndProcessFiles.output. split; [by apply prefix_app_r|].
      intros Heq. apply (f_equal length) in Heq. rewrite length_app in Heq.
      simpl in Heq. lia.
    - unfold ExtractAndProcessFiles.output, name. by rewrite last_snoc. }
  unfold ExtractAndProcessFiles.output, output in Heq.
  by apply app_inv_head in Heq.
Qed.

End sweep_theorem.

Section member_facts.
Import OS pd ExtractAndProcessFiles.

Lemma read_inv p data w w1 :
  read p w = (Ok data, w1) → w1 = w ∧ files w !! p = Some (File data).
Proof.
  unfold read. rewrite io_bind_eq. simpl.
  destruct (files w !! p) as [[data'|]|]; try done. by intros [= <- <-].
Qed.

Lemma lift_inv {A} (r : result A) a w w1 :
  lift r w = (Ok a, w1) → r = Ok a ∧ w1 = w.
Proof. unfold lift. by intros [= -> <-]. Qed.

Lemma read_text_inv p text w w1 :
  read_text p w = (Ok text, w1) →
  w1 = w ∧ files w !! p = Some (File (Plain text)).
Proof.
  unfold read_text. rewrite io_bind_eq.
  destruct (read p w) as [[data|e] wr] eqn:Hr; [|done].
  apply read_inv in Hr as [-> Hfile].
  intros [Hdec ->]%lift_inv. split; [done|].
  destruct data as [s| |]; simpl in Hdec; try done.
  destruct (Py.utf8 s); by simplify_eq.
Qed.

Lemma read_text_utf8 p text w w1 :
  read_text p w = (Ok text, w1) → Py.utf8 text = true.
Proof.
  unfold read_text. rewrite io_bind_eq.
  destruct (read p w) as [[data|e] wr] eqn:Hr; [|done].
  intros [Hdec _]%lift_inv.
  destruct data as [s| |]; simpl in Hdec; try done.
  destruct (Py.utf8 s) eqn:Hs; by simplify_eq.
Qed.

Lemma for_each_save_table_log file_path dfs w w1 :
  for_each dfs (save_table file_path) w = (Ok (), w1) →
  log w1 = log w ++ (table_write file_path <$> dfs).
Proof.
  revert w. induction dfs as [|entry dfs IH]; intros w; simpl.
  - intros [= <-]. by rewrite app_nil_r.
  - rewrite io_bind_eq.
    destruct (save_table file_path entry w) as [[[]|e] ws] eqn:Hs; [|done].
    apply write_inv in Hs as ->. intros ->%IH. simpl.
    by rewrite <-app_assoc.
Qed.

Lemma process_text_file_log file_path w w1 :
  process_text_file file_path w = (Ok (), w1) →
  ∃ text dfs,
    files w !! file_path = Some (File (Plain text)) ∧
    Parser.parse text = Ok dfs ∧
    log w1 = log w ++ (table_write file_path <$> dfs).
Proof.
  unfold process_text_file. rewrite io_bind_eq.
  destruct (read_text file_path w) as [[text|e] wr] eqn:Hr; [|done].
  apply read_text_inv in Hr as [-> Hfile]. rewrite io_bind_eq.
  destruct (lift (Parser.parse text) w) as [[dfs|e] wl] eqn:Hl; [|done].
  apply lift_inv in Hl as [Hparse ->].
  intros Hlog%for_each_save_table_log. by eauto.
Qed.

(** C9 (amended): a member that is processed to the end goes through these
    steps in this order: its directory is made, the text file is opened and
    the decompressed text written to it, the compressed member is deleted,
    and then the tables of the text are written, one [.tsv] file each. *)
Theorem member_steps t gz_file w w' :
  process_member t gz_file w = (Ok (), w') →
  let extracted_dir := main_dir t ++ [stem (without_suffix gz_file)] in
  let text_file := extracted_dir ++ [name (without_suffix gz_file)] in
  ∃ data text dfs,
    files w !! gz_file = Some (File data) ∧
    gunzip data = Ok text ∧
    Parser.parse text = Ok dfs ∧
    log w' = log w
             ++ [Makedirs extracted_dir;
                 Write text_file (Plain "");
                 Write text_file (Plain text);
                 Unlink gz_file]
             ++ (table_write text_file <$> dfs).
Proof.
  unfold process_member. cbv zeta.
  set (text_file := (main_dir t ++ _) ++ _).
  rewrite io_bind_eq.
  destruct (makedirs _ w) as [[[]|e] w1] eqn:H1; [|done].
  apply makedirs_ok in H1 as [Hlog1 Hmk].
  rewrite io_bind_eq.
  destruct (read gz_file w1) as [[data|e] w2] eqn:H2; [|done].
  apply read_inv in H2 as [-> Hgz]. rewrite io_bind_eq.
  destruct (write text_file (Plain "") w1) as [[[]|e] w3] eqn:H3; [|done].
  apply write_inv in H3 as ->. rewrite io_bind_eq.
  destruct (lift (gunzip data) _) as [[text|e] w4] eqn:H4; [|done].
  apply lift_inv in H4 as [Hgunzip ->]. rewrite io_bind_eq.
  destruct (write text_file (Plain text) _) as [[[]|e] w5] eqn:H5; [|done].
  apply write_inv in H5 as ->. simpl. rewrite io_bind_eq.
  destruct (unlink gz_file _) as [[[]|e] w6] eqn:H6; [|done].
  apply unlink_ok in H6 as (_ & Hfiles6 & Hlog6). simpl in *.
  intros (text' & dfs & Htext & Hparse & Hlog)%process_text_file_log.
  assert (text' = text) as ->.
  { rewrite Hfiles6 in Htext. apply lookup_delete_Some in Htext as [Hne Htext].
    rewrite insert_insert_eq, lookup_insert_eq in Htext. by simplify_eq. }
  assert (files w !! gz_file = Some (File data)) as Hgz0.
  { by destruct (Hmk _ _ Hgz) as [[_ ?]|?]. }
  exists data, text, dfs. split_and!; try done.
  rewrite Hlog, Hlog6, Hlog1. by rewrite <-!app_assoc.
Qed.

Lemma member_steps_witness :
  ∃ data text dfs,
    files (Example.unpacked Example.member_text) !! Example.member
    = Some (File data) ∧
    gunzip data = Ok text ∧
    Parser.parse text = Ok dfs ∧
    log (process_member Example.GSE Example.member
           (Example.unpacked Example.member_text)).2
    = log (Example.unpacked Example.member_text)
      ++ [Makedirs ["data"; "GSE1"; "GSM1"];
          Write ["data"; "GSE1"; "GSM1"; "GSM1.txt"] (Plain "");
          Write ["data"; "GSE1"; "GSM1"; "GSM1.txt"] (Plain text);
          Unlink Example.member]
      ++ (table_write ["data"; "GSE1"; "GSM1"; "GSM1.txt"] <$> dfs).
Proof.
  apply (member_steps Example.GSE Example.member
           (Example.unpacked Example.member_text)).
  vm_compute. reflexivity.
Defined.

(** C9 (as claimed) fails: the member is deleted before any table is
    written; and when the text cannot be parsed the member is gone all the
    same, with no table written. *)
Lemma member_deleted_before_tables :
  log (process_member Example.GSE Example.member
         (Example.unpacked (text_of ["[A]"; "c"; "1"]))).2
  = [Makedirs ["data"; "GSE1"; "GSM1"];
     Write ["data"; "GSE1"; "GSM1"; "GSM1.txt"] (Plain "");
     Write ["data"; "GSE1"; "GSM1"; "GSM1.txt"]
           (Plain (text_of ["[A]"; "c"; "1"]));
     Unlink Example.member;
     Write ["data"; "GSE1"; "GSM1"; "A.tsv"] (Plain (text_of ["c"; "1"]))]
  ∧ (process_member Example.GSE Example.member
       (Example.unpacked (text_of ["[A]"; "c"; "1"; "[B]"]))).1
    = Raise EmptyDataError
  ∧ files (process_member Example.GSE Example.member
             (Example.unpacked (text_of ["[A]"; "c"; "1"; "[B]"]))).2
    !! Example.member = None
  ∧ files (process_member Example.GSE Example.member
             (Example.unpacked (text_of ["[A]"; "c"; "1"; "[B]"]))).2
    !! ["data"; "GSE1"; "GSM1"; "A.tsv"] = None.
Proof. split_and!; vm_compute; reflexivity. Qed.

End member_facts.

(** * Further properties of the stages *)

Section parser_extras.
Import pd Parser.

Lemma step_body_closed st l :
  body_line l → Py.truthy (write_key st) = false → step st l = Ok st.
Proof. intros Hl Hk. unfold step. by rewrite Hl, Hk. Qed.

Lemma scan_lines_closed st ls :
  Forall body_line ls → Py.truthy (write_key st) = false →
  scan_lines st ls = Ok st.
Proof.
  intros Hls Hk. induction Hls as [|l ls Hl _ IH]; [done|].
  simpl. rewrite step_body_closed by done. done.
Qed.

(** X1: lines before the first header line are passed over: a text gives
    the tables of what is left when such lines are taken off its front. *)
Theorem parse_discards_lines_before_first_header text text' pre :
  Py.readlines (Py.universal_newlines text)
  = pre ++ Py.readlines (Py.universal_newlines text') →
  Forall body_line pre →
  parse text = parse text'.
Proof.
  intros Hlines Hpre. unfold parse. rewrite Hlines, scan_lines_app.
  by rewrite scan_lines_closed.
Qed.

Lemma parse_discards_lines_before_first_header_witness :
  parse (text_of ["garbage"; "more"; "[A]"; tsv ["a"; "b"]])
  = parse (text_of ["[A]"; tsv ["a"; "b"]]).
Proof.
  apply (parse_discards_lines_before_first_header _ _
           [text_of ["garbage"]; text_of ["more"]]);
    [vm_compute; reflexivity | by repeat constructor].
Defined.

End parser_extras.

Section dict_facts.
Context {V : Type}.
Implicit Types (d : list (string * V)).

Lemma dict_get_set_eq k v d : Py.dict_get k (Py.dict_set k v d) = Some v.
Proof.
  induction d as [|[k' v'] d IH]; simpl.
  - by rewrite decide_True.
  - destruct (decide (k' = k)) as [->|Hne]; simpl.
    + by rewrite decide_True.
    + by rewrite decide_False.
Qed.

Lemma dict_get_set_ne k k' v d :
  k ≠ k' → Py.dict_get k' (Py.dict_set k v d) = Py.dict_get k' d.
Proof.
  intros Hne. induction d as [|[k0 v0] d IH]; simpl.
  - by rewrite decide_False.
  - destruct (decide (k0 = k)) as [->|Hne0]; simpl.
    + by rewrite !decide_False.
    + by rewrite IH.
Qed.

Lemma elem_of_dict_set_keys k k' v d :
  k' ∈ (Py.dict_set k v d).*1 ↔ k' = k ∨ k' ∈ d.*1.
Proof.
  induction d as [|[k0 v0] d IH]; simpl.
  - rewrite list_elem_of_singleton. rewrite elem_of_nil. tauto.
  - destruct (decide (k0 = k)) as [->|Hne]; simpl.
    + rewrite !elem_of_cons. tauto.
    + rewrite !elem_of_cons, IH. tauto.
Qed.

Lemma NoDup_dict_set_keys k v d :
  NoDup d.*1 → NoDup (Py.dict_set k v d).*1.
Proof.
  induction d as [|[k0 v0] d IH]; simpl.
  - intros _. apply NoDup_singleton.
  - rewrite NoDup_cons. intros [Hk0 Hd].
    destruct (decide (k0 = k)) as [->|Hne]; simpl.
    + by apply NoDup_cons.
    + apply NoDup_cons. split; [|by apply IH].
      rewrite elem_of_dict_set_keys. intros [?|?]; done.
Qed.

Lemma dict_get_Some_keys k v d : Py.dict_get k d = Some v → k ∈ d.*1.
Proof.
  induction d as [|[k0 v0] d IH]; simpl; [done|].
  destruct (decide (k0 = k)) as [->|Hne]; [left|right]; auto.
Qed.

End dict_facts.

Section parser_keys.
Import pd Parser.

Lemma truthy_iff k : Py.truthy k = true ↔ ∃ s, k = Some s ∧ s ≠ "".
Proof.
  destruct k as [[|a s]|]; simpl; split; try done.
  - intros (s & [= <-] & ?). done.
  - intros _. by eexists.
  - intros (s & ? & _). done.
Qed.

(** What one turn of the loop does. *)
Lemma step_header st h st' :
  header_line h → step st h = Ok st' →
  write_key st' = Some (section_name h) ∧ fio st' = "" ∧
  ((Py.truthy (write_key st) = false ∧ dfs st' = dfs st) ∨
   (∃ k df, write_key st = Some k ∧ k ≠ "" ∧
      read_csv (if decide (k = "Heading") then HeaderNone else HeaderInfer)
               (fio st) = Ok df ∧
      dfs st' = Py.dict_set k df (dfs st))).
Proof.
  intros Hh. unfold step. rewrite Hh.
  destruct (Py.truthy (write_key st)) eqn:Hk; simpl.
  - apply truthy_iff in Hk as (k & Hk & Hne). rewrite Hk. simpl.
    destruct (read_csv _ _) as [df|] eqn:Hread; simpl; [|done].
    intros [= <-]. simpl. split_and!; try done. right. by exists k, df.
  - intros [= <-]. simpl. split_and!; try done. by left.
Qed.

Lemma step_body st l st' :
  body_line l → step st l = Ok st' →
  dfs st' = dfs st ∧ write_key st' = write_key st ∧
  fio st' = (if Py.truthy (write_key st) then fio st +:+ l else fio st).
Proof.
  intros Hl. unfold step. rewrite Hl.
  destruct (Py.truthy (write_key st)); by intros [= <-].
Qed.

Lemma header_or_body l : header_line l ∨ body_line l.
Proof. unfold header_line, body_line. destruct (Py.startswith _ _); auto. Qed.

Lemma finish_inv st dfs' :
  finish st = Ok dfs' →
  (Py.truthy (write_key st) = false ∧ dfs' = dfs st) ∨
  (∃ k df, write_key st = Some k ∧ k ≠ "" ∧
     read_csv HeaderInfer (fio st) = Ok df ∧
     dfs' = Py.dict_set k df (dfs st)).
Proof.
  unfold finish. destruct (Py.truthy (write_key st)) eqn:Hk.
  - apply truthy_iff in Hk as (k & Hk & Hne). rewrite Hk. simpl.
    destruct (read_csv _ _) as [df|]; simpl; [|done].
    intros [= <-]. right. by exists k, df.
  - intros [= <-]. by left.
Qed.

(** The names under which the loop and the last flush store tables. *)
Lemma scan_finish_keys ls st dfs' :
  (scan_lines st ls ≫= finish) = Ok dfs' →
  (NoDup (dfs st).*1 → NoDup dfs'.*1)
  ∧ ∀ k, k ∈ dfs'.*1 ↔
      k ∈ (dfs st).*1
      ∨ (write_key st = Some k ∧ k ≠ "")
      ∨ (k ≠ "" ∧ ∃ h, h ∈ ls ∧ header_line h ∧ section_name h = k).
Proof.
  revert st. induction ls as [|l ls IH]; intros st; simpl.
  - intros [[Hk ->]|(k0 & df & Hk & Hne & _ & ->)]%finish_inv.
    + split; [done|]. intros k. split; [by left|].
      intros [?|[[Hk' Hne]|(_ & h & Hh%elem_of_nil & _)]]; try done.
      rewrite Hk' in Hk. by destruct k.
    + split; [apply NoDup_dict_set_keys|]. intros k.
      rewrite elem_of_dict_set_keys. split.
      * intros [->|?]; [right; left; done | by left].
      * intros [?|[[Hk' _]|(_ & h & Hh%elem_of_nil & _)]]; try done; [by right|].
        left. congruence.
  - destruct (step st l) as [st1|e] eqn:Hstep; simpl; [|done].
    intros [Hnd Hkeys]%IH.
    destruct (header_or_body l) as [Hl|Hl].
    + destruct (step_header _ _ _ Hl Hstep) as (Hkey1 & _ & Hdfs).
      destruct Hdfs as [[Hk Hdfs]|(k0 & df & Hk & Hne & _ & Hdfs)].
      * rewrite Hdfs in *. split; [done|]. intros k. rewrite Hkeys, Hkey1.
        split.
        -- intros [?|[[[= <-] ?]|(? & h & ? & ? & ?)]]; [by left|..].
           ++ right; right. split; [done|]. exists l. split_and!; [left|done..].
           ++ right; right. split; [done|]. exists h. split_and!; [by right|done..].
        -- intros [?|[[Hk' Hne]|(Hne & h & [->|Hh]%elem_of_cons & ? & <-)]].
           ++ by left.
           ++ rewrite Hk' in Hk. by destruct k.
           ++ right; left. done.
           ++ right; right. split; [done|]. by exists h.
      * rewrite Hdfs in *. split.
        { intros ?. by apply Hnd, NoDup_dict_set_keys. }
        intros k. rewrite Hkeys, Hkey1, elem_of_dict_set_keys. split.
        -- intros [[->|?]|[[[= <-] ?]|(? & h & ? & ? & ?)]].
           ++ right; left. done.
           ++ by left.
           ++ right; right. split; [done|]. exists l. split_and!; [left|done..].
           ++ right; right. split; [done|]. exists h. split_and!; [by right|done..].
        -- intros [?|[[Hk' ?]|(? & h & [->|Hh]%elem_of_cons & ? & <-)]].
           ++ left. by right.
           ++ left. left. congruence.
           ++ right; left. done.
           ++ right; right. split; [done|]. by exists h.
    + destruct (step_body _ _ _ Hl Hstep) as (Hdfs & Hkey & _).
      rewrite Hdfs, Hkey in *. split; [done|]. intros k. rewrite Hkeys.
      split.
      * intros [?|[?|(? & h & ? & ? & ?)]]; [by left | by right; left |].
        right; right. split; [done|]. exists h. split_and!; [by right|done..].
      * intros [?|[?|(? & h & [->|Hh]%elem_of_cons & Hh' & ?)]];
          [by left | by right; left | |].
        -- unfold header_line, body_line in *. congruence.
        -- right; right. split; [done|]. by exists h.
Qed.

(** X2: the tables that [parse] returns stand under distinct names, and
    these are the names of the header lines of the text that are not
    empty. *)
Theorem parse_keys text dfs' :
  parse text = Ok dfs' →
  NoDup dfs'.*1
  ∧ ∀ k, k ∈ dfs'.*1 ↔
      k ≠ "" ∧ ∃ h, h ∈ Py.readlines (Py.universal_newlines text)
                    ∧ header_line h ∧ section_name h = k.
Proof.
  unfold parse. intros [Hnd Hkeys]%scan_finish_keys. split.
  - apply Hnd. constructor.
  - intros k. rewrite Hkeys. simpl. split.
    + intros [Hk%elem_of_nil|[[? _]|?]]; done.
    + intros ?. by right; right.
Qed.

Lemma parse_keys_witness :
  ∃ dfs', parse Example.member_text = Ok dfs' ∧ dfs'.*1
          = ["Heading"; "Probes"; "Controls"] ∧ NoDup dfs'.*1.
Proof.
  eexists. split; [vm_compute; reflexivity|]. split; [reflexivity|].
  eapply (proj1 (parse_keys Example.member_text _ _)).
  Unshelve. vm_compute. reflexivity.
Defined.

End parser_keys.

Section parser_sections.
Import pd Parser.

Lemma scan_lines_body st body :
  Forall body_line body → Py.truthy (write_key st) = true →
  scan_lines st body
  = Ok (mkScan (dfs st) (write_key st) (fio st +:+ concat_lines body)).
Proof.
  intros Hbody. revert st. induction Hbody as [|l ls Hl _ IH]; intros st Hk.
  - simpl. rewrite string_app_nil_r. by destruct st.
  - simpl. unfold step at 1. rewrite Hl, Hk. simpl.
    rewrite IH by done. simpl. by rewrite string_app_assoc.
Qed.

(** Lines that open no section named [k] leave the table of [k] alone,
    once the section that is open is not [k]. *)
Lemma scan_finish_other k ls st dfs' :
  (scan_lines st ls ≫= finish) = Ok dfs' →
  write_key st ≠ Some k →
  Forall (λ l, header_line l → section_name l ≠ k) ls →
  Py.dict_get k dfs' = Py.dict_get k (dfs st).
Proof.
  revert st. induction ls as [|l ls IH]; intros st; simpl.
  - intros [[_ ->]|(k0 & df & Hk0 & _ & _ & ->)]%finish_inv Hkey _; [done|].
    apply dict_get_set_ne. congruence.
  - destruct (step st l) as [st1|e] eqn:Hstep; simpl; [|done].
    intros Hrest Hkey Hls. inversion_clear Hls as [|?? Hl Hls'].
    destruct (header_or_body l) as [Hh|Hb].
    + destruct (step_header _ _ _ Hh Hstep) as (Hkey1 & _ & Hdfs).
      rewrite (IH st1 Hrest); [| |done].
      2:{ rewrite Hkey1. intros [= ?]. by apply Hl. }
      destruct Hdfs as [[_ ->]|(k0 & df & Hk0 & _ & _ & ->)]; [done|].
      apply dict_get_set_ne. congruence.
    + destruct (step_body _ _ _ Hb Hstep) as (Hdfs & Hkey1 & _).
      rewrite (IH st1 Hrest); [by rewrite Hdfs | by rewrite Hkey1 | done].
Qed.

(** X3: the table under a name is read from the body that follows the last
    header line of that name: with the first line as header, except for a
    section named [Heading] that is followed by another section, which is
    read without a header. *)
Theorem parse_section text dfs' pre h body rest k :
  parse text = Ok dfs' →
  Py.readlines (Py.universal_newlines text) = pre ++ h :: body ++ rest →
  header_line h → section_name h = k → k ≠ "" →
  Forall body_line body →
  (rest = [] ∨ ∃ h' rest', rest = h' :: rest' ∧ header_line h') →
  Forall (λ l, header_line l → section_name l ≠ k) rest →
  ∃ df,
    Py.dict_get k dfs' = Some df ∧
    read_csv (if decide (k = "Heading" ∧ rest ≠ []) then HeaderNone
              else HeaderInfer)
             (concat_lines body) = Ok df.
Proof.
  unfold parse. intros Hparse Hlines Hh Hname Hk Hbody Hrest Hothers.
  rewrite Hlines, scan_lines_app in Hparse.
  destruct (scan_lines start pre) as [st0|] eqn:Hpre; [|done]. simpl in Hparse.
  destruct (step st0 h) as [st1|] eqn:Hstep; [|done]. simpl in Hparse.
  destruct (step_header _ _ _ Hh Hstep) as (Hkey1 & Hfio1 & _).
  rewrite Hname in Hkey1.
  rewrite scan_lines_app, scan_lines_body in Hparse; [|done|].
  2:{ rewrite Hkey1. by destruct k. }
  simpl in Hparse. rewrite Hfio1, Hkey1 in Hparse.
  change ("" +:+ concat_lines body) with (concat_lines body) in Hparse.
  destruct Hrest as [->|(h' & rest' & -> & Hh')].
  - simpl in Hparse. apply finish_inv in Hparse
      as [[Ht _]|(k0 & df & [= <-] & _ & Hread & ->)]; simpl in *.
    { by destruct k. }
    exists df. split; [apply dict_get_set_eq|].
    rewrite decide_False; [done|]. by intros [_ ?].
  - simpl in Hparse.
    destruct (step _ h') as [st2|] eqn:Hstep2; [|done]. simpl in Hparse.
    destruct (step_header _ _ _ Hh' Hstep2) as (Hkey2 & _ & Hdfs2).
    simpl in Hdfs2. inversion_clear Hothers as [|?? Hh'k Hrest'].
    destruct Hdfs2 as [[Ht _]|(k0 & df & [= <-] & _ & Hread & Hdfs2)].
    { by destruct k. }
    exists df. split.
    + rewrite (scan_finish_other k rest' st2 dfs' Hparse); [| |done].
      * rewrite Hdfs2. apply dict_get_set_eq.
      * rewrite Hkey2. intros [= ?]. by apply Hh'k.
    + destruct (decide (k = "Heading")) as [->|Hne].
      * by rewrite decide_True.
      * rewrite decide_False; [done|]. by intros [? _].
Qed.

Lemma parse_section_witness :
  ∃ df,
    Py.dict_get "Heading"
      [("Heading", Example.heading); ("Probes", Example.probes);
       ("Controls", mkDataFrame [Name "c"] [[Text "1"]])] = Some df ∧
    read_csv (if decide ("Heading" = "Heading"
                         ∧ [text_of ["[Probes]"];
                            text_of [tsv ["Probe_Id"; "Definition";
                                          "Probe_Sequence"]];
                            text_of [tsv ["p1"; "d"; "ACGT"]];
                            text_of ["[Controls]"]; text_of ["c"];
                            text_of ["1"]] ≠ [])
              then HeaderNone else HeaderInfer)
             (concat_lines [text_of ["x"]; text_of ["y"]]) = Ok df.
Proof.
  apply (parse_section Example.member_text _
           [text_of ["junk"]] (text_of ["[Heading]"])
           [text_of ["x"]; text_of ["y"]]).
  - vm_compute. reflexivity.
  - vm_compute. reflexivity.
  - reflexivity.
  - vm_compute. reflexivity.
  - discriminate.
  - by repeat constructor.
  - right. eexists _, _. split; reflexivity.
  - repeat constructor; intros _; vm_compute; discriminate.
Defined.

End parser_sections.

Section save_tables.
Import OS pd ExtractAndProcessFiles.

Lemma string_length_app s t :
  String.length (s +:+ t) = String.length s + String.length t.
Proof. induction s as [|a s IH]; simpl; [done|]. by rewrite IH. Qed.

Lemma string_app_inv_tail s1 s2 t : s1 +:+ t = s2 +:+ t → s1 = s2.
Proof.
  revert s2. induction s1 as [|a s1 IH]; intros [|b s2] Heq.
  - done.
  - apply (f_equal String.length) in Heq.
    rewrite !string_length_app in Heq. simpl in Heq. lia.
  - apply (f_equal String.length) in Heq.
    rewrite !string_length_app in Heq. simpl in Heq. lia.
  - rewrite !string_app_cons in Heq. injection Heq as -> Heq.
    f_equal. by apply IH.
Qed.

Lemma startswith_char_contains c s :
  Py.contains c s = false → Py.startswith (String c "") s = false.
Proof.
  destruct s as [|a s]; simpl; [done|].
  intros [Ha _]%orb_false_iff. apply bool_decide_eq_false in Ha.
  rewrite bool_decide_eq_false_2; [done|]. congruence.
Qed.

Lemma joinpath_table file_path key :
  Py.contains "/" key = false →
  joinpath (parent file_path) (key +:+ ".tsv") = table_path file_path key.
Proof.
  intros Hkey.
  assert (Py.contains "/" (key +:+ ".tsv") = false) as Hfree.
  { by rewrite contains_app, Hkey. }
  unfold joinpath, table_path, parts_of.
  rewrite startswith_char_contains by done. rewrite split_free by done.
  rewrite filter_cons, decide_True; [done|].
  split; intros Heq; apply (f_equal String.length) in Heq;
    rewrite string_length_app in Heq; simpl in Heq; lia.
Qed.

Lemma table_path_inj file_path k1 k2 :
  table_path file_path k1 = table_path file_path k2 → k1 = k2.
Proof.
  unfold table_path. intros Heq%app_inv_head. injection Heq as Heq.
  by eapply string_app_inv_tail.
Qed.

Lemma is_dir_insert_file fs p data d :
  p ≠ d → is_dir (<[p := File data]> fs) d = is_dir fs d.
Proof. intros Hne. unfold is_dir. by rewrite lookup_insert_ne. Qed.

Lemma for_each_save_table_ok file_path dfs w :
  NoDup dfs.*1 →
  Forall (λ e, Py.contains "/" e.1 = false) dfs →
  is_dir (files w) (parent file_path) = true →
  (∀ key, key ∈ dfs.*1 → is_dir (files w) (table_path file_path key) = false) →
  ∃ w', for_each dfs (save_table file_path) w = (Ok (), w')
    ∧ (∀ key df, (key, df) ∈ dfs →
         files w' !! table_path file_path key = Some (File (Plain (to_csv df))))
    ∧ (∀ p, (∀ key, key ∈ dfs.*1 → p ≠ table_path file_path key) →
         files w' !! p = files w !! p).
Proof.
  revert w. induction dfs as [|[k0 df0] dfs IH]; intros w Hnd Hfree Hdir Hnodir.
  - exists w. split_and!; [done| |done]. by intros ?? ?%elem_of_nil.
  - simpl in Hnd. apply NoDup_cons in Hnd as [Hk0 Hnd].
    inversion_clear Hfree as [|?? Hfree0 Hfree'].
    simpl. rewrite io_bind_eq. unfold save_table at 1. simpl in *.
    rewrite joinpath_table by done.
    assert (parent (table_path file_path k0) = parent file_path) as Hparent.
    { unfold table_path, parent. by rewrite removelast_last. }
    rewrite write_ok; [|by rewrite Hparent|apply Hnodir; left].
    set (wa := mkWorld _ _).
    assert (table_path file_path k0 ≠ parent file_path) as Hne.
    { intros Heq. apply (f_equal length) in Heq. unfold table_path in Heq.
      rewrite length_app in Heq. simpl in Heq. lia. }
    destruct (IH wa) as (w' & Hrun & Hsaved & Hframe); [done|done|..].
    { simpl. by rewrite is_dir_insert_file. }
    { intros key Hkey. simpl. rewrite is_dir_insert_file.
      - apply Hnodir. by right.
      - intros ->%table_path_inj. done. }
    exists w'. split_and!; [done|..].
    + intros key df [[= -> ->]|Hin]%elem_of_cons.
      * rewrite Hframe; [apply lookup_insert_eq|].
        intros key Hkey ->%table_path_inj. done.
      * by apply Hsaved.
    + intros p Hp. rewrite Hframe.
      * simpl. apply lookup_insert_ne. symmetry. apply Hp. left.
      * intros key Hkey. apply Hp. by right.
Qed.

(** X4: when a file of plain text (UTF-8, no double quote, no NUL) parses
    into tables of words whose names can name a file, and nothing stands in
    the way of their files, [process_text_file] goes through, leaves each
    table in the file [<name>.tsv] next to the text file, and leaves every
    other path as it was. *)
Theorem process_text_file_saves_tables file_path w text dfs :
  files w !! file_path = Some (File (Plain text)) →
  Py.utf8 text = true →
  unquoted text = true →
  Parser.parse text = Ok dfs →
  Forall (λ e, file_key e.1) dfs →
  Forall (λ e, text_table e.2 = true) dfs →
  is_dir (files w) (parent file_path) = true →
  (∀ key, key ∈ dfs.*1 → is_dir (files w) (table_path file_path key) = false) →
  ∃ w', process_text_file file_path w = (Ok (), w')
    ∧ (∀ key df, (key, df) ∈ dfs →
         files w' !! table_path file_path key = Some (File (Plain (to_csv df))))
    ∧ (∀ p, (∀ key, key ∈ dfs.*1 → p ≠ table_path file_path key) →
         files w' !! p = files w !! p).
Proof.
  intros Hfile Hutf8 _ Hparse Hkeys _ Hdir Hnodir.
  unfold process_text_file.
  rewrite io_bind_eq, (read_text_plain _ _ _ Hfile Hutf8), io_bind_eq.
  unfold lift at 1. rewrite Hparse.
  apply for_each_save_table_ok; try done.
  - unfold Parser.parse in Hparse.
    apply scan_finish_keys in Hparse as [Hnd _]. apply Hnd. constructor.
  - eapply Forall_impl; [done|]. by intros e [? _].
Qed.

Lemma process_text_file_saves_tables_witness :
  ∃ w', process_text_file ["data"; "GSE1"; "GSM1"; "GSM1.txt"]
          Example.words_member = (Ok (), w')
    ∧ (∀ key df,
         (key, df) ∈ [("Heading", Example.heading); ("Probes", Example.probes)] →
         files w' !! table_path ["data"; "GSE1"; "GSM1"; "GSM1.txt"] key
         = Some (File (Plain (to_csv df))))
    ∧ (∀ p,
         (∀ key, key ∈ [("Heading", Example.heading);
                        ("Probes", Example.probes)].*1 →
                 p ≠ table_path ["data"; "GSE1"; "GSM1"; "GSM1.txt"] key) →
         files w' !! p = files Example.words_member !! p).
Proof.
  apply (process_text_file_saves_tables _ _ Example.words_text).
  - vm_compute. reflexivity.
  - vm_compute. reflexivity.
  - vm_compute. reflexivity.
  - vm_compute. reflexivity.
  - repeat constructor; simpl; lia.
  - repeat constructor.
  - vm_compute. reflexivity.
  - intros key Hkey. simpl in Hkey. rewrite !elem_of_cons in Hkey.
    destruct Hkey as [->|[->|Hkey]];
      [vm_compute; reflexivity..| by apply elem_of_nil in Hkey].
Defined.

End save_tables.

Section trim_run.
Import OS pd TrimProbesTable.

Lemma write_frame p data w r w' q :
  write p data w = (r, w') → q ≠ p → files w' !! q = files w !! q.
Proof.
  unfold write. rewrite io_bind_eq. simpl.
  repeat (case_match; try by intros [= <- <-]).
  intros [= <- <-] Hne. simpl. by rewrite lookup_insert_ne.
Qed.

Lemma read_text_world {p w r w'} : read_text p w = (r, w') → w' = w.
Proof.
  unfold read_text, read. rewrite !io_bind_eq. simpl.
  destruct (files w !! p) as [[d|]|]; simpl; unfold lift; by intros [= _ <-].
Qed.

Lemma trim_frame q w r w' p :
  trim q w = (r, w') → p ≠ trimmed_file_path q → files w' !! p = files w !! p.
Proof.
  unfold trim. rewrite io_bind_eq.
  destruct (read_text q w) as [[text|e] w1] eqn:Hread.
  2:{ intros [= <- <-] _. by rewrite (read_text_world Hread). }
  rewrite (read_text_world Hread). rewrite io_bind_eq.
  unfold lift at 1. destruct (read_csv HeaderInfer text) as [df|e].
  - apply write_frame.
  - by intros [= <- <-].
Qed.

Lemma for_each_trim_frame l w r w' p :
  for_each l trim w = (r, w') →
  (∀ q, q ∈ l → p ≠ trimmed_file_path q) →
  files w' !! p = files w !! p.
Proof.
  revert w. induction l as [|q l IH]; intros w; simpl.
  - by intros [= <- <-].
  - rewrite io_bind_eq. destruct (trim q w) as [[[]|e] wa] eqn:Hq.
    + intros Hrest Hp. rewrite (IH _ Hrest).
      * eapply trim_frame; [done|]. apply Hp. left.
      * intros q' Hq'. apply Hp. by right.
    + intros [= <- <-] Hp. eapply trim_frame; [done|]. apply Hp. left.
Qed.

Lemma name_trimmed q :
  name q = "Probes.tsv" → name (trimmed_file_path q) = "Probes_trimmed.tsv".
Proof.
  intros Hq. rewrite trimmed_file_path_Probes by done.
  unfold name. by rewrite last_snoc.
Qed.

Lemma rglob_Probes_name fs d q :
  q ∈ rglob fs d (Exactly "Probes.tsv") → name q = "Probes.tsv".
Proof. by intros (_ & _ & _ & ?%bool_decide_eq_true)%elem_of_rglob. Qed.

(** X5: however [run] ends, it changes no path but those named
    [Probes_trimmed.tsv]; each [Probes.tsv] stays as it was. *)
Theorem run_changes_only_trimmed_files t w r w' p :
  run t w = (r, w') →
  name p ≠ "Probes_trimmed.tsv" →
  files w' !! p = files w !! p.
Proof.
  unfold run. rewrite io_bind_eq. simpl.
  destruct (rglob (files w) (main_dir t) (Exactly "Probes.tsv")) as [|q l] eqn:Hl.
  - by intros [= <- <-].
  - intros Hrun Hp. eapply for_each_trim_frame; [done|].
    intros q' Hq' ->. apply Hp, name_trimmed.
    apply (rglob_Probes_name (files w) (main_dir t)). by rewrite Hl.
Qed.

Lemma write_ok_inv p data w w' :
  write p data w = (Ok (), w') →
  is_dir (files w) (parent p) = true ∧ is_dir (files w) p = false.
Proof.
  unfold write. rewrite io_bind_eq. simpl.
  destruct (exists_in (files w) (parent p)); simpl; [|done].
  destruct (is_dir (files w) (parent p)); simpl; [|done].
  by destruct (is_dir (files w) p).
Qed.

Lemma trim_ok_inv q w w' :
  trim q w = (Ok (), w') →
  ∃ text df,
    files w !! q = Some (File (Plain text)) ∧
    read_csv HeaderInfer text = Ok df ∧
    is_dir (files w) (parent q) = true ∧
    is_dir (files w) (trimmed_file_path q) = false ∧
    files w'
    = <[trimmed_file_path q := File (Plain (to_csv (drop columns_to_remove df)))]>
        (files w).
Proof.
  unfold trim. rewrite io_bind_eq.
  destruct (read_text q w) as [[text|e] w1] eqn:Hread; [|done].
  apply read_text_inv in Hread as [-> Hfile]. rewrite io_bind_eq.
  unfold lift at 1. destruct (read_csv HeaderInfer text) as [df|e] eqn:Hcsv; [|done].
  intros Hwrite. exists text, df. split_and!; try done.
  - apply write_ok_inv in Hwrite as [Hdir _].
    unfold trimmed_file_path in Hdir. by rewrite parent_with_name in Hdir.
  - by apply write_ok_inv in Hwrite as [_ ?].
  - by apply write_inv in Hwrite as ->.
Qed.

Lemma trim_ok_utf8 q w w' text :
  trim q w = (Ok (), w') →
  files w !! q = Some (File (Plain text)) → Py.utf8 text = true.
Proof.
  unfold trim. rewrite io_bind_eq.
  destruct (read_text q w) as [[text'|e] w1] eqn:Hread; [|done].
  pose proof (read_text_utf8 _ _ _ _ Hread) as Hutf8.
  apply read_text_inv in Hread as [-> Hfile]. intros _ Hfile'.
  rewrite Hfile in Hfile'. by simplify_eq.
Qed.

Lemma trimmed_ne_Probes q q' :
  name q = "Probes.tsv" → name q' = "Probes.tsv" → q ≠ trimmed_file_path q'.
Proof.
  intros Hq Hq' Heq. apply (f_equal name) in Heq.
  rewrite name_trimmed, Hq in Heq by done. done.
Qed.

Lemma for_each_trim_ok l w w' :
  Forall (λ q, name q = "Probes.tsv") l →
  for_each l trim w = (Ok (), w') →
  ∀ q, q ∈ l →
    ∃ text df,
      files w !! q = Some (File (Plain text)) ∧
      Py.utf8 text = true ∧
      read_csv HeaderInfer text = Ok df ∧
      files w' !! trimmed_file_path q
      = Some (File (Plain (to_csv (drop columns_to_remove df)))).
Proof.
  intros Hl. revert w. induction Hl as [|q0 l Hq0 Hl IH]; intros w; simpl.
  - by intros _ q ?%elem_of_nil.
  - rewrite io_bind_eq. destruct (trim q0 w) as [[[]|e] wa] eqn:Htrim; [|done].
    intros Hrest q Hq.
    pose proof Htrim as (text0 & df0 & Hfile0 & Hcsv0 & _ & _ & Hwa)%trim_ok_inv.
    pose proof (trim_ok_utf8 _ _ _ _ Htrim Hfile0) as Hutf0.
    assert (∀ q', name q' = "Probes.tsv" → files wa !! q' = files w !! q') as Hsame.
    { intros q' Hq'. rewrite Hwa. apply lookup_insert_ne.
      intros Heq. by eapply (trimmed_ne_Probes q' q0). }
    destruct (decide (q ∈ l)) as [Hin|Hnotin].
    + destruct (IH wa Hrest q Hin) as (text & df & Hfile & Hutf & Hcsv & Hout).
      exists text, df. split_and!; try done.
      rewrite <-Hsame; [done|]. rewrite Forall_forall in Hl. by apply Hl.
    + apply elem_of_cons in Hq as [->|?]; [|done].
      exists text0, df0. split_and!; try done.
      rewrite (for_each_trim_frame _ _ _ _ _ Hrest).
      * rewrite Hwa. apply lookup_insert_eq.
      * intros q' Hq' Heq. rewrite !trimmed_file_path_Probes in Heq.
        -- apply app_inv_tail in Heq.
           assert (q0 = q') as ->; [|done].
           rewrite (parent_name q0), (parent_name q').
           ++ rewrite Heq, Hq0. f_equal. f_equal. symmetry.
              rewrite Forall_forall in Hl. by apply Hl.
           ++ intros ->. rewrite Forall_forall in Hl.
              by specialize (Hl _ Hq').
           ++ by intros ->.
        -- rewrite Forall_forall in Hl. by apply Hl.
        -- done.
Qed.

Lemma run_ok_inv t w w' :
  run t w = (Ok (), w') →
  rglob (files w) (main_dir t) (Exactly "Probes.tsv") ≠ []
  ∧ for_each (rglob (files w) (main_dir t) (Exactly "Probes.tsv")) trim w
    = (Ok (), w').
Proof.
  unfold run. rewrite io_bind_eq. simpl.
  by destruct (rglob _ _ _).
Qed.

Lemma Forall_rglob_Probes fs d :
  Forall (λ q, name q = "Probes.tsv") (rglob fs d (Exactly "Probes.tsv")).
Proof. apply Forall_forall. intros q. apply rglob_Probes_name. Qed.

(** A run that went through: what it leaves at a [Probes.tsv] and next to
    it. *)
Lemma run_ok_tables t w w' q :
  run t w = (Ok (), w') →
  q ∈ rglob (files w) (main_dir t) (Exactly "Probes.tsv") →
  files w' !! q = files w !! q
  ∧ ∃ text df,
      files w !! q = Some (File (Plain text)) ∧
      Py.utf8 text = true ∧
      read_csv HeaderInfer text = Ok df ∧
      files w' !! trimmed_file_path q
      = Some (File (Plain (to_csv (drop columns_to_remove df)))).
Proof.
  intros [_ Hrun]%run_ok_inv Hq. split.
  - eapply for_each_trim_frame; [done|]. intros q' Hq'.
    apply trimmed_ne_Probes; by eapply rglob_Probes_name.
  - eapply for_each_trim_ok; [apply Forall_rglob_Probes|done..].
Qed.

Lemma for_each_trim_goes_through l w :
  Forall (λ q, name q = "Probes.tsv") l →
  (∀ q, q ∈ l → plain_table (files w) q) →
  ∃ w', for_each l trim w = (Ok (), w').
Proof.
  intros Hl. revert w. induction Hl as [|q0 l Hq0 Hl IH]; intros w Hall; simpl.
  - by eexists.
  - destruct (Hall q0) as (Hdir0 & Hnodir0 & text & df & Hfile & Hutf8 & _ & Hcsv & _);
      [left|].
    rewrite io_bind_eq. unfold trim at 1.
    rewrite io_bind_eq, (read_text_plain _ _ _ Hfile Hutf8), io_bind_eq.
    unfold lift at 1. rewrite Hcsv.
    rewrite write_ok; [|unfold trimmed_file_path; by rewrite parent_with_name|done].
    apply IH. intros q Hq. simpl.
    destruct (Hall q) as (Hdir & Hnodir & text' & df' & Hfile' & Hrest); [by right|].
    assert (name q = "Probes.tsv") as Hname.
    { rewrite Forall_forall in Hl. by apply Hl. }
    split_and!.
    + rewrite is_dir_insert_file; [done|]. intros Heq.
      rewrite Heq in Hnodir0. congruence.
    + destruct (decide (trimmed_file_path q0 = trimmed_file_path q)) as [Heq|Hne].
      * rewrite <-Heq. unfold is_dir. rewrite lookup_insert_eq.
        apply orb_false_iff. split; [|done]. apply bool_decide_eq_false.
        unfold trimmed_file_path, with_name. by destruct (parent q0).
      * by rewrite is_dir_insert_file.
    + exists text', df'. split; [|done].
      rewrite lookup_insert_ne; [done|]. intros Heq.
      by eapply (trimmed_ne_Probes q q0).
Qed.

(** X6: when every [Probes.tsv] that the search finds is a plain table,
    and there is one, [run] goes through and leaves next to each of them,
    in [Probes_trimmed.tsv], the table it held without the columns of
    [columns_to_remove]. *)
Theorem run_writes_every_trimmed_table t w probes_file :
  probes_file ∈ rglob (files w) (main_dir t) (Exactly "Probes.tsv") →
  (∀ q, q ∈ rglob (files w) (main_dir t) (Exactly "Probes.tsv") →
        plain_table (files w) q) →
  ∃ w', run t w = (Ok (), w')
    ∧ ∀ q, q ∈ rglob (files w) (main_dir t) (Exactly "Probes.tsv") →
        ∃ text df,
          files w !! q = Some (File (Plain text)) ∧
          read_csv HeaderInfer text = Ok df ∧
          files w' !! (parent q ++ ["Probes_trimmed.tsv"])
          = Some (File (Plain (to_csv (drop columns_to_remove df)))).
Proof.
  intros Hfound Hall.
  destruct (for_each_trim_goes_through
              (rglob (files w) (main_dir t) (Exactly "Probes.tsv")) w)
    as [w' Hloop]; [apply Forall_rglob_Probes | done |].
  assert (run t w = (Ok (), w')) as Hrun.
  { unfold run. rewrite io_bind_eq. simpl.
    destruct (rglob (files w) (main_dir t) (Exactly "Probes.tsv")) eqn:Hl;
      [by apply elem_of_nil in Hfound | done]. }
  exists w'. split; [done|]. intros q Hq.
  destruct (run_ok_tables _ _ _ _ Hrun Hq)
    as (_ & text & df & Hfile & _ & Hcsv & Hout).
  exists text, df. split_and!; try done.
  by rewrite <-trimmed_file_path_Probes by by eapply rglob_Probes_name.
Qed.

Lemma run_changes_only_trimmed_files_witness :
  files (run Example.GSE Example.extracted).2
    !! ["data"; "GSE1"; "GSM1"; "Probes.tsv"]
  = files Example.extracted !! ["data"; "GSE1"; "GSM1"; "Probes.tsv"].
Proof.
  apply (run_changes_only_trimmed_files Example.GSE Example.extracted
           (run Example.GSE Example.extracted).1);
    [by destruct (run _ _) | vm_compute; discriminate].
Defined.

Lemma run_writes_every_trimmed_table_witness :
  ∃ w', run Example.GSE Example.extracted = (Ok (), w')
    ∧ ∀ q, q ∈ rglob (files Example.extracted) (main_dir Example.GSE)
                 (Exactly "Probes.tsv") →
        ∃ text df,
          files Example.extracted !! q = Some (File (Plain text)) ∧
          read_csv HeaderInfer text = Ok df ∧
          files w' !! (parent q ++ ["Probes_trimmed.tsv"])
          = Some (File (Plain (to_csv (drop columns_to_remove df)))).
Proof.
  apply (run_writes_every_trimmed_table Example.GSE Example.extracted
           ["data"; "GSE1"; "GSM1"; "Probes.tsv"]).
  - vm_compute. left.
  - intros q Hq.
    assert (q = ["data"; "GSE1"; "GSM1"; "Probes.tsv"]) as ->.
    { revert Hq. vm_compute. by intros ->%list_elem_of_singleton. }
    split_and!; [vm_compute; reflexivity..|].
    exists (text_of [tsv ["Probe_Id"; "Definition"; "Probe_Sequence"];
                     tsv ["p1"; "d"; "ACGT"]]), Example.probes.
    split_and!; [vm_compute; reflexivity..| vm_compute; discriminate].
Defined.

End trim_run.

Section trim_again.
Import OS pd TrimProbesTable.

Lemma for_each_trim_dirs l w w' d :
  for_each l trim w = (Ok (), w') →
  is_dir (files w) d = true → is_dir (files w') d = true.
Proof.
  revert w. induction l as [|q l IH]; intros w; simpl.
  - by intros [= <-].
  - rewrite io_bind_eq. destruct (trim q w) as [[[]|e] wa] eqn:Htrim; [|done].
    intros Hrest Hd. apply (IH wa Hrest).
    apply trim_ok_inv in Htrim as (text & df & _ & _ & _ & Hnodir & ->).
    rewrite is_dir_insert_file; [done|]. intros Heq.
    rewrite Heq in Hnodir. congruence.
Qed.

Lemma for_each_trim_parents l w w' q :
  for_each l trim w = (Ok (), w') → q ∈ l →
  is_dir (files w') (parent q) = true.
Proof.
  revert w. induction l as [|q0 l IH]; intros w; simpl.
  - by intros _ ?%elem_of_nil.
  - rewrite io_bind_eq. destruct (trim q0 w) as [[[]|e] wa] eqn:Htrim; [|done].
    intros Hrest [->|Hq]%elem_of_cons; [|by eapply IH].
    eapply for_each_trim_dirs; [done|].
    apply trim_ok_inv in Htrim as (text & df & _ & _ & Hdir & Hnodir & ->).
    rewrite is_dir_insert_file; [done|]. intros Heq.
    rewrite Heq in Hnodir. congruence.
Qed.

(** After a run that went through, the search finds the same files. *)
Lemma run_ok_rglob t w w' q :
  run t w = (Ok (), w') →
  q ∈ rglob (files w') (main_dir t) (Exactly "Probes.tsv")
  ↔ q ∈ rglob (files w) (main_dir t) (Exactly "Probes.tsv").
Proof.
  intros Hrun. pose proof Hrun as [Hne Hloop]%run_ok_inv.
  assert (is_dir (files w) (main_dir t) = true) as Hmain.
  { unfold rglob in Hne. by destruct (is_dir _ _). }
  assert (is_dir (files w') (main_dir t) = true) as Hmain'.
  { by eapply for_each_trim_dirs. }
  assert (∀ q', name q' = "Probes.tsv" → files w' !! q' = files w !! q') as Hsame.
  { intros q' Hq'. eapply for_each_trim_frame; [done|]. intros q'' Hq''.
    apply trimmed_ne_Probes; [done | by eapply rglob_Probes_name]. }
  rewrite !elem_of_rglob, Hmain, Hmain'.
  split; intros (_ & Hq & Hb & Hn); split_and!; try done.
  - rewrite <-Hsame; [done|]. by apply bool_decide_eq_true in Hn.
  - rewrite Hsame; [done|]. by apply bool_decide_eq_true in Hn.
Qed.

(** X7: after a run that went through, the stage is complete: its outputs,
    worked out anew, are not empty and all exist. *)
Theorem run_completes_the_stage t w w' :
  run t w = (Ok (), w') →
  complete (files w') (output t (files w')) = true.
Proof.
  intros Hrun. pose proof Hrun as [Hne Hloop]%run_ok_inv.
  unfold complete, output.
  destruct (rglob (files w') _ _) as [|q0 l0] eqn:Hl'.
  { destruct (rglob (files w) (main_dir t) (Exactly "Probes.tsv")) as [|q l] eqn:Hl;
      [done|].
    assert (q ∈ rglob (files w') (main_dir t) (Exactly "Probes.tsv")) as Hq.
    { apply (run_ok_rglob _ _ _ _ Hrun). rewrite Hl. left. }
    rewrite Hl' in Hq. by apply elem_of_nil in Hq. }
  rewrite <-Hl'. destruct (trimmed_file_path <$> _) eqn:Hout.
  { rewrite Hl' in Hout. done. }
  rewrite <-Hout. apply forallb_Forall, Forall_fmap, Forall_forall.
  intros q Hq%(run_ok_rglob _ _ _ _ Hrun). simpl.
  apply bool_decide_eq_true.
  destruct (run_ok_tables _ _ _ _ Hrun Hq)
    as (_ & text & df & _ & _ & _ & Hfile).
  by eexists.
Qed.

Lemma trim_again q w text df :
  files w !! q = Some (File (Plain text)) →
  Py.utf8 text = true →
  read_csv HeaderInfer text = Ok df →
  files w !! trimmed_file_path q
  = Some (File (Plain (to_csv (drop columns_to_remove df)))) →
  is_dir (files w) (parent q) = true →
  ∃ w', trim q w = (Ok (), w') ∧ files w' = files w.
Proof.
  intros Hfile Hutf8 Hcsv Hout Hdir. unfold trim.
  rewrite io_bind_eq, (read_text_plain _ _ _ Hfile Hutf8), io_bind_eq.
  unfold lift at 1. rewrite Hcsv.
  rewrite write_ok.
  - eexists. split; [done|]. simpl. by apply insert_id.
  - unfold trimmed_file_path. by rewrite parent_with_name.
  - unfold is_dir. rewrite Hout. apply orb_false_iff. split; [|done].
    apply bool_decide_eq_false. unfold trimmed_file_path, with_name.
    by destruct (parent q).
Qed.

Lemma for_each_trim_again l w :
  (∀ q, q ∈ l → ∃ text df,
      files w !! q = Some (File (Plain text)) ∧
      Py.utf8 text = true ∧
      read_csv HeaderInfer text = Ok df ∧
      files w !! trimmed_file_path q
      = Some (File (Plain (to_csv (drop columns_to_remove df)))) ∧
      is_dir (files w) (parent q) = true) →
  ∃ w', for_each l trim w = (Ok (), w') ∧ files w' = files w.
Proof.
  revert w. induction l as [|q l IH]; intros w Hall; simpl.
  - by exists w.
  - destruct (Hall q) as (text & df & Hfile & Hutf8 & Hcsv & Hout & Hdir);
      [left|].
    destruct (trim_again q w text df) as (wa & Htrim & Hwa); try done.
    rewrite io_bind_eq, Htrim.
    destruct (IH wa) as (w' & Hrest & Hw').
    { intros q' Hq'. rewrite Hwa. apply Hall. by right. }
    exists w'. split; [done|]. by rewrite Hw'.
Qed.

(** X8: after a run that went through, a second run goes through too and
    leaves every file as the first run left it. *)
Theorem run_twice t w w1 :
  run t w = (Ok (), w1) →
  ∃ w2, run t w1 = (Ok (), w2) ∧ files w2 = files w1.
Proof.
  intros Hrun. pose proof Hrun as [Hne Hloop]%run_ok_inv.
  destruct (for_each_trim_again
              (rglob (files w1) (main_dir t) (Exactly "Probes.tsv")) w1)
    as (w2 & Hloop2 & Hw2).
  { intros q Hq%(run_ok_rglob _ _ _ _ Hrun).
    destruct (run_ok_tables _ _ _ _ Hrun Hq)
      as (Hsame & text & df & Hfile & Hutf8 & Hcsv & Hout).
    exists text, df. split_and!; try done.
    - by rewrite Hsame.
    - by eapply for_each_trim_parents. }
  exists w2. split; [|done].
  unfold run. rewrite io_bind_eq. simpl.
  destruct (rglob (files w1) (main_dir t) (Exactly "Probes.tsv")) as [|q l] eqn:Hl;
    [|done].
  destruct (rglob (files w) (main_dir t) (Exactly "Probes.tsv")) as [|q l] eqn:Hl0;
    [done|].
  assert (q ∈ rglob (files w1) (main_dir t) (Exactly "Probes.tsv")) as Hq.
  { apply (run_ok_rglob _ _ _ _ Hrun). rewrite Hl0. left. }
  rewrite Hl in Hq. by apply elem_of_nil in Hq.
Qed.

Lemma run_completes_the_stage_witness :
  complete (files (run Example.GSE Example.extracted).2)
           (output Example.GSE (files (run Example.GSE Example.extracted).2))
  = true.
Proof.
  apply (run_completes_the_stage Example.GSE Example.extracted).
  vm_compute. reflexivity.
Defined.

Lemma run_twice_witness :
  ∃ w2, run Example.GSE (run Example.GSE Example.extracted).2 = (Ok (), w2)
        ∧ files w2 = files (run Example.GSE Example.extracted).2.
Proof.
  apply (run_twice Example.GSE Example.extracted).
  vm_compute. reflexivity.
Defined.

End trim_again.

Section sweep_frame.
Import OS CleanupOriginalFiles.

Lemma unlink_any p w r w' :
  unlink p w = (r, w') → files w' = files w ∨ files w' = delete p (files w).
Proof.
  unfold unlink. rewrite io_bind_eq. simpl.
  destruct (files w !! p) as [[d|]|]; intros [= <- <-]; auto.
Qed.

Lemma for_each_unlink_frame l w r w' p :
  for_each l unlink w = (r, w') → p ∉ l → files w' !! p = files w !! p.
Proof.
  revert w. induction l as [|q l IH]; intros w; simpl.
  - by intros [= <- <-].
  - rewrite io_bind_eq. intros Hrun Hp.
    apply not_elem_of_cons in Hp as [Hpq Hp].
    destruct (unlink q w) as [[[]|e] wa] eqn:Hq.
    + rewrite (IH _ Hrun Hp).
      apply unlink_any in Hq as [->| ->]; [done|]. by apply lookup_delete_ne.
    + injection Hrun as <- <-.
      apply unlink_any in Hq as [->| ->]; [done|]. by apply lookup_delete_ne.
Qed.

Lemma remove_if_empty_any b d w r w' :
  remove_if_empty b d w = (r, w') →
  files w' = files w ∨ files w' = delete d (files w).
Proof.
  unfold remove_if_empty. rewrite io_bind_eq. simpl.
  destruct (children (files w) d).
  - rewrite io_bind_eq. simpl. destruct b; intros [= <- <-]; auto.
  - intros [= <- <-]. auto.
Qed.

Lemma for_each_remove_if_empty_files b l w r w' p data :
  for_each l (remove_if_empty b) w = (r, w') →
  Forall (no_file (files w)) l →
  files w !! p = Some (File data) → files w' !! p = Some (File data).
Proof.
  revert w. induction l as [|d l IH]; intros w; simpl.
  - by intros [= <- <-].
  - rewrite io_bind_eq. intros Hrun Hl Hp.
    inversion_clear Hl as [|?? Hd Hl'].
    assert (p ≠ d) as Hne. { intros ->. by destruct (Hd data). }
    destruct (remove_if_empty b d w) as [[[]|e] wa] eqn:Hstep.
    + apply (IH wa Hrun).
      * apply remove_if_empty_any in Hstep as [->| ->]; [done|].
        eapply Forall_impl; [done|]. intros d' Hd' data' Hlook.
        apply lookup_delete_Some in Hlook as [_ ?]. by destruct (Hd' data').
      * apply remove_if_empty_any in Hstep as [->| ->]; [done|].
        by rewrite lookup_delete_ne.
    + injection Hrun as <- <-.
      apply remove_if_empty_any in Hstep as [->| ->]; [done|].
      by rewrite lookup_delete_ne.
Qed.

Lemma glob_dirs_no_file fs d : d ≠ [] → Forall (no_file fs) (glob_dirs fs d).
Proof.
  intros Hd. unfold glob_dirs. destruct (is_dir fs d) eqn:Hdir; [|constructor].
  constructor.
  - intros data Hlook. unfold is_dir in Hdir. rewrite Hlook in Hdir.
    rewrite orb_false_r in Hdir. by apply bool_decide_eq_true in Hdir.
  - apply Forall_forall. intros q. rewrite merge_sort_Permutation.
    intros [Hq Hin%elem_of_descendants]%list_elem_of_filter data Hlook.
    unfold is_dir in Hq. rewrite Hlook, orb_false_r in Hq.
    apply bool_decide_eq_true in Hq. subst q.
    destruct Hin as [_ Hb]. by apply below_nonempty in Hb.
Qed.

Lemma makedirs_files p w r w' q data :
  makedirs p w = (r, w') →
  files w !! q = Some (File data) → files w' !! q = Some (File data).
Proof.
  unfold makedirs. rewrite io_bind_eq. simpl.
  destruct (existsb _ _) eqn:Hex; [by intros [= <- <-]|].
  intros [= <- <-] Hq. simpl.
  assert (q ∉ ancestors_and_self p) as Hnotin.
  { intros Hin. apply not_true_iff_false in Hex. apply Hex.
    apply existsb_exists. exists q. split; [by apply list_elem_of_In|].
    unfold is_file. by rewrite Hq. }
  revert Hnotin. generalize (ancestors_and_self p). intros l.
  induction l as [|a l IH]; simpl; [done|].
  intros [Hne Hl]%not_elem_of_cons. rewrite lookup_insert_ne by done. auto.
Qed.

Lemma target_write_files p text w r w' q data :
  target_write p text w = (r, w') →
  files w !! q = Some (File data) → q ≠ p →
  files w' !! q = Some (File data).
Proof.
  unfold target_write. rewrite io_bind_eq.
  destruct (makedirs (parent p) w) as [[[]|e] wm] eqn:Hm.
  - intros Hw Hq Hne. rewrite (write_frame _ _ _ _ _ _ Hw) by done.
    by eapply makedirs_files.
  - intros Hw Hq Hne. by rewrite (write_frame _ _ _ _ _ _ Hw).
Qed.

Lemma rglob_raw fs d e q :
  e = ".txt" ∨ e = ".gz" → q ∈ rglob fs d (Ending e) → raw_name (name q) = true.
Proof.
  intros He (_ & _ & _ & Hm)%elem_of_rglob. unfold raw_name.
  destruct He as [-> | ->]; rewrite Hm; [done | apply orb_true_r].
Qed.

(** X9: however [run] ends, a file whose name ends neither in [.txt] nor
    in [.gz] is left as it was. *)
Theorem sweep_keeps_other_files b t w r w' p data :
  run b t w = (r, w') →
  files w !! p = Some (File data) →
  raw_name (name p) = false →
  files w' !! p = Some (File data).
Proof.
  intros Hrun Hp Hname. revert Hrun. unfold run.
  assert (∀ fs e, e = ".txt" ∨ e = ".gz" → p ∉ rglob fs (main_dir t) (Ending e))
    as Hnotin.
  { intros fs e He Hin. apply (rglob_raw _ _ _ _ He) in Hin. congruence. }
  rewrite io_bind_eq. simpl. rewrite io_bind_eq.
  destruct (for_each (rglob (files w) _ _) unlink w) as [[[]|e1] w1] eqn:H1.
  2:{ intros [= <- <-].
      rewrite (for_each_unlink_frame _ _ _ _ _ H1); [done | apply Hnotin; auto]. }
  assert (files w1 !! p = Some (File data)) as Hp1.
  { rewrite (for_each_unlink_frame _ _ _ _ _ H1); [done | apply Hnotin; auto]. }
  rewrite io_bind_eq. simpl. rewrite io_bind_eq.
  destruct (for_each (rglob (files w1) _ _) unlink w1) as [[[]|e2] w2] eqn:H2.
  2:{ intros [= <- <-].
      rewrite (for_each_unlink_frame _ _ _ _ _ H2); [done | apply Hnotin; auto]. }
  assert (files w2 !! p = Some (File data)) as Hp2.
  { rewrite (for_each_unlink_frame _ _ _ _ _ H2); [done | apply Hnotin; auto]. }
  rewrite io_bind_eq. simpl. rewrite io_bind_eq.
  assert (main_dir t ≠ []) as Hmain.
  { unfold main_dir. by destruct (output_dir t). }
  destruct (for_each (glob_dirs (files w2) _) _ w2) as [[[]|e3] w3] eqn:H3.
  2:{ intros [= <- <-].
      eapply for_each_remove_if_empty_files; [done| |done].
      by apply glob_dirs_no_file. }
  assert (files w3 !! p = Some (File data)) as Hp3.
  { eapply for_each_remove_if_empty_files; [done| |done].
    by apply glob_dirs_no_file. }
  intros Hw. eapply target_write_files; [done..|].
  intros ->. by rewrite name_output in Hname.
Qed.

Lemma sweep_keeps_other_files_witness :
  files (run false Example.GSE Example.trimmed).2
    !! ["data"; "GSE1"; "GSM1"; "Probes_trimmed.tsv"]
  = Some (File (Plain (text_of ["Probe_Id"; "p1"]))).
Proof.
  apply (sweep_keeps_other_files false Example.GSE Example.trimmed
           (run false Example.GSE Example.trimmed).1);
    [by destruct (run _ _ _) | vm_compute; reflexivity..].
Defined.

Lemma sweep_never_keeps_the_unpack_marker_witness :
  target_exists (files (run false Example.GSE Example.trimmed).2)
                (ExtractAndProcessFiles.output Example.GSE) = false.
Proof.
  apply (sweep_never_keeps_the_unpack_marker false Example.GSE Example.trimmed);
    vm_compute; reflexivity.
Defined.

End sweep_frame.

Section extract_run.
Import OS pd ExtractAndProcessFiles.

Lemma io_bind_inv {A B} (m : io A) (f : A → io B) w r w' :
  (m ≫= f) w = (r, w') →
  (∃ a w1, m w = (Ok a, w1) ∧ f a w1 = (r, w'))
  ∨ (∃ e, m w = (Raise e, w') ∧ r = Raise e).
Proof.
  rewrite io_bind_eq. destruct (m w) as [[a|e] w1].
  - intros ?. left. by exists a, w1.
  - intros [= <- <-]. right. by exists e.
Qed.

(** X11: a run that went through has written its marker, so the stage is
    complete. *)
Theorem extract_run_marks_completion t w w' :
  run t w = (Ok (), w') →
  files w' !! output t = Some (File (Plain "Processing completed."))
  ∧ complete (files w') [output t] = true.
Proof.
  unfold run. intros Hrun.
  repeat (apply io_bind_inv in Hrun as [(? & ? & _ & Hrun)|(? & _ & ?)]; [|done]).
  apply target_write_ok in Hrun as [Hmarker _].
  split; [done|]. unfold complete, target_exists. simpl.
  rewrite Hmarker. rewrite bool_decide_eq_true_2; [done | by eexists].
Qed.

Lemma removes_refl t w : removes_members_only t w w.
Proof. intros p ?. by left. Qed.

Lemma removes_trans t w1 w2 w3 :
  removes_members_only t w1 w2 → removes_members_only t w2 w3 →
  removes_members_only t w1 w3.
Proof. intros H12 H23 p Hp. destruct (H12 p Hp) as [?|?]; auto. Qed.

Lemma keeps_all t w w' :
  (∀ p, is_Some (files w !! p) → is_Some (files w' !! p)) →
  removes_members_only t w w'.
Proof. intros H p Hp. left. auto. Qed.

Lemma makedirs_keeps p w r w' q :
  makedirs p w = (r, w') → is_Some (files w !! q) → is_Some (files w' !! q).
Proof.
  unfold makedirs. rewrite io_bind_eq. simpl.
  destruct (existsb _ _); [by intros [= <- <-]|].
  intros [= <- <-]. simpl. generalize (ancestors_and_self p). intros l Hq.
  induction l as [|a l IH]; simpl; [done|].
  destruct (decide (a = q)) as [->|Hne].
  - rewrite lookup_insert_eq. by eexists.
  - by rewrite lookup_insert_ne.
Qed.

Lemma write_keeps p data w r w' q :
  write p data w = (r, w') → is_Some (files w !! q) → is_Some (files w' !! q).
Proof.
  intros Hw Hq. destruct (decide (q = p)) as [->|Hne].
  - revert Hw. unfold write. rewrite io_bind_eq. simpl.
    repeat (case_match; try by intros [= <- <-]).
    intros [= <- <-]. simpl. rewrite lookup_insert_eq. by eexists.
  - by rewrite (write_frame _ _ _ _ _ _ Hw).
Qed.

Lemma read_world {p w r w'} : read p w = (r, w') → w' = w.
Proof.
  unfold read. rewrite io_bind_eq. simpl.
  destruct (files w !! p) as [[d|]|]; by intros [= _ <-].
Qed.

Lemma lift_world {A} {m : result A} {w r w'} : lift m w = (r, w') → w' = w.
Proof. unfold lift. by intros [= _ <-]. Qed.

Lemma for_each_steps {A} (R : world → world → Prop) (P : A → Prop)
    (body : A → io unit) l :
  (∀ w, R w w) → (∀ w1 w2 w3, R w1 w2 → R w2 w3 → R w1 w3) →
  (∀ x w r w', P x → body x w = (r, w') → R w w') →
  Forall P l → ∀ w r w', for_each l body w = (r, w') → R w w'.
Proof.
  intros Hrefl Htrans Hbody Hl. induction Hl as [|x l Hx _ IH]; intros w r w'.
  - simpl. intros [= <- <-]. apply Hrefl.
  - simpl. intros [(? & wa & Hstep & Hrest)|(? & Hstep & _)]%io_bind_inv.
    + eapply Htrans; [by eapply Hbody | by eapply IH].
    + by eapply Hbody.
Qed.

Lemma process_text_file_keeps t file_path w r w' :
  process_text_file file_path w = (r, w') → removes_members_only t w w'.
Proof.
  unfold process_text_file.
  intros [(text & w1 & Hread & Hrun)|(? & Hread & _)]%io_bind_inv.
  2:{ rewrite (read_text_world Hread). apply removes_refl. }
  rewrite (read_text_world Hread) in Hrun.
  apply io_bind_inv in Hrun as [(dfs & w2 & Hparse & Hrun)|(? & Hparse & _)].
  2:{ rewrite (lift_world Hparse). apply removes_refl. }
  rewrite (lift_world Hparse) in Hrun.
  eapply (for_each_steps (removes_members_only t) (λ _, True));
    [apply removes_refl | apply removes_trans | | | done].
  - intros entry wa ra wb _ Hsave. apply keeps_all. intros q.
    by eapply write_keeps.
  - by apply Forall_true.
Qed.

Lemma process_member_keeps t gz_file w r w' :
  member_of t gz_file →
  process_member t gz_file w = (r, w') → removes_members_only t w w'.
Proof.
  intros Hgz. unfold process_member.
  intros [(? & w1 & H1 & Hrun)|(? & H1 & _)]%io_bind_inv.
  2:{ apply keeps_all. intros q. by eapply makedirs_keeps. }
  eapply removes_trans.
  { apply keeps_all. intros q. by eapply makedirs_keeps. }
  apply io_bind_inv in Hrun as [(data & w2 & H2 & Hrun)|(? & H2 & _)].
  2:{ rewrite (read_world H2). apply removes_refl. }
  rewrite (read_world H2) in Hrun.
  apply io_bind_inv in Hrun as [(? & w3 & H3 & Hrun)|(? & H3 & _)].
  2:{ apply keeps_all. intros q. by eapply write_keeps. }
  eapply removes_trans.
  { apply keeps_all. intros q. by eapply write_keeps. }
  apply io_bind_inv in Hrun as [(text & w4 & H4 & Hrun)|(? & H4 & _)].
  2:{ rewrite (lift_world H4). apply removes_refl. }
  rewrite (lift_world H4) in Hrun.
  apply io_bind_inv in Hrun as [(? & w5 & H5 & Hrun)|(? & H5 & _)].
  2:{ apply keeps_all. intros q. by eapply write_keeps. }
  eapply removes_trans.
  { apply keeps_all. intros q. by eapply write_keeps. }
  apply io_bind_inv in Hrun as [(? & w6 & H6 & Hrun)|(? & H6 & _)].
  - eapply removes_trans; [|by eapply process_text_file_keeps].
    intros q Hq. apply unlink_any in H6 as [->| ->]; [by left|].
    destruct (decide (q = gz_file)) as [->|Hne]; [by right|].
    left. by rewrite lookup_delete_ne.
  - intros q Hq. apply unlink_any in H6 as [->| ->]; [by left|].
    destruct (decide (q = gz_file)) as [->|Hne]; [by right|].
    left. by rewrite lookup_delete_ne.
Qed.

Lemma elem_of_glob fs d pat p :
  p ∈ glob fs d pat → parent p = d ∧ fnmatch pat (name p) = true.
Proof.
  unfold glob. destruct (is_dir fs d); [|by intros ?%elem_of_nil].
  intros [Hm (_ & _ & ?)%elem_of_children]%list_elem_of_filter. done.
Qed.

Lemma extractall_keeps t dest data w r w' :
  extractall dest data w = (r, w') → removes_members_only t w w'.
Proof.
  unfold extractall. destruct data as [| |members];
    try (intros [= <- <-]; apply removes_refl).
  apply (for_each_steps (removes_members_only t) (λ _, True));
    [apply removes_refl | apply removes_trans | | by apply Forall_true].
  intros m wa ra wb _. unfold extract_member.
  intros [(? & w1 & H1 & Hrun)|(? & H1 & _)]%io_bind_inv.
  - eapply removes_trans; apply keeps_all; intros q;
      [by eapply makedirs_keeps | by eapply write_keeps].
  - apply keeps_all. intros q. by eapply makedirs_keeps.
Qed.

Lemma target_write_keeps p text w r w' q :
  target_write p text w = (r, w') →
  is_Some (files w !! q) → is_Some (files w' !! q).
Proof.
  unfold target_write. rewrite io_bind_eq.
  destruct (makedirs (parent p) w) as [[[]|e] wm] eqn:Hm.
  - intros Hw Hq. eapply write_keeps; [done|]. by eapply makedirs_keeps.
  - intros Hw Hq. by eapply write_keeps.
Qed.

(** X12: however [run] ends, the only paths it removes are compressed
    members that lie in [main_dir]: any other path that existed before
    exists afterwards. *)
Theorem extract_run_removes_members_only t w r w' p :
  run t w = (r, w') →
  is_Some (files w !! p) →
  is_Some (files w' !! p)
  ∨ (parent p = main_dir t ∧ Py.endswith ".gz" (name p) = true).
Proof.
  intros Hrun. revert p. change (removes_members_only t w w').
  revert Hrun. unfold run.
  intros [(? & w1 & H1 & Hrun)|(? & H1 & _)]%io_bind_inv.
  2:{ apply keeps_all. intros q. by eapply makedirs_keeps. }
  eapply removes_trans.
  { apply keeps_all. intros q. by eapply makedirs_keeps. }
  apply io_bind_inv in Hrun as [(tar & w2 & H2 & Hrun)|(? & H2 & _)].
  2:{ rewrite (read_world H2). apply removes_refl. }
  rewrite (read_world H2) in Hrun.
  apply io_bind_inv in Hrun as [(? & w3 & H3 & Hrun)|(? & H3 & _)].
  2:{ by eapply extractall_keeps. }
  eapply removes_trans; [by eapply extractall_keeps|].
  apply io_bind_inv in Hrun as [(fs & w4 & [= <- <-] & Hrun)|(? & [=] & _)].
  apply io_bind_inv in Hrun as [(? & w5 & H5 & Hrun)|(? & H5 & _)].
  - eapply removes_trans.
    + eapply (for_each_steps (removes_members_only t) (member_of t));
        [apply removes_refl | apply removes_trans | | | done].
      * intros gz wa ra wb Hgz. by apply process_member_keeps.
      * apply Forall_forall. intros gz Hgz%elem_of_glob. done.
    + apply keeps_all. intros q. by eapply target_write_keeps.
  - eapply (for_each_steps (removes_members_only t) (member_of t));
      [apply removes_refl | apply removes_trans | | | done].
    + intros gz wa ra wb Hgz. by apply process_member_keeps.
    + apply Forall_forall. intros gz Hgz%elem_of_glob. done.
Qed.

Lemma extract_run_marks_completion_witness :
  files (run Example.GSE Example.downloaded).2 !! output Example.GSE
  = Some (File (Plain "Processing completed."))
  ∧ complete (files (run Example.GSE Example.downloaded).2)
             [output Example.GSE] = true.
Proof.
  apply (extract_run_marks_completion Example.GSE Example.downloaded).
  vm_compute. reflexivity.
Defined.

Lemma extract_run_removes_members_only_witness :
  is_Some (files (run Example.GSE Example.downloaded).2
             !! ["data"; "GSE1_RAW.tar"])
  ∨ (parent ["data"; "GSE1_RAW.tar"] = main_dir Example.GSE
     ∧ Py.endswith ".gz" (name ["data"; "GSE1_RAW.tar"]) = true).
Proof.
  apply (extract_run_removes_members_only Example.GSE Example.downloaded
           (run Example.GSE Example.downloaded).1);
    [by destruct (run _ _) | vm_compute; by eexists].
Defined.

End extract_run.

Section download.
Import OS DownloadDataset.







(** A body whose read breaks off leaves an archive that was there empty. *)
Example broken_download_empties_archive :
  files Example.downloaded !! DownloadDataset.output Example.GSE
  = Some (File (Tar [(["GSM1.txt.gz"], Gzip Example.member_text)]))
  ∧ run Example.GSE (Ok Example.broken_answer) Example.downloaded
    = (Failed ConnectionError,
       mkWorld (<[ DownloadDataset.output Example.GSE := File (Plain "") ]>
                  (files Example.downloaded))
               [Makedirs ["data"];
                Write (DownloadDataset.output Example.GSE) (Plain "")]).
Proof. split; vm_compute; reflexivity. Qed.

End download.
